(** * Shapely multi-part polygons: construction protocol and adapter

    A shallow embedding of [shapely/geometry/multipolygon.py] together
    with the properties stated about it.  Python values are a small
    universe of dynamically typed data, exceptions are an explicit error
    type, and the native geometry engine is threaded through every call
    as an explicit state. *)

From Stdlib Require Import QArith.
From Stdlib Require Import Ascii String DecimalString.
From stdpp Require Import base option list gmap strings.

Set Warnings "-register-all".

Local Open Scope string_scope.
Local Open Scope nat_scope.
Local Open Scope list_scope.

(** ** Python values *)

(** The values the module handles: [None], numbers, strings, tuples and
    lists (both [PySeq]), string-keyed dictionaries, and objects with
    attributes which may in addition be indexable (array-likes, geometry
    sequences). *)
Inductive pyval : Type :=
| PyNone
| PyNum (q : Q)
| PyStr (s : string)
| PySeq (items : list pyval)
| PyDict (entries : list (string * pyval))
| PyObj (attrs : list (string * pyval)) (items : option (list pyval)).

Definition PyInt (n : nat) : pyval := PyNum (inject_Z (Z.of_nat n)).

(** ** Exceptions and the error monad *)

(** The built-in exceptions the module can raise, and [ShapeError] for
    the failures of the polygon builder.  An [assert] that fails raises
    [AssertionError]. *)
Inductive exn : Type :=
| AssertionError
| AttributeError
| TypeError
| IndexError
| KeyError
| ShapeError.

Global Instance exn_eq_dec : EqDecision exn.
Proof. solve_decision. Defined.

Inductive result (A : Type) : Type :=
| Ok (a : A)
| Raise (e : exn).
Arguments Ok {A} a.
Arguments Raise {A} e.

Global Instance result_ret : MRet result := fun A a => Ok a.
Global Instance result_bind : MBind result := fun A B f c =>
  match c with
  | Ok a => f a
  | Raise e => Raise e
  end.

(** [try: c except e: h] *)
Definition try_except {A} (c : result A) (e : exn) (h : result A) : result A :=
  match c with
  | Ok a => Ok a
  | Raise e' => if decide (e' = e) then h else Raise e'
  end.

Definition py_assert (b : bool) : result unit :=
  if b then Ok tt else Raise AssertionError.

(** ** Built-in operations *)

Fixpoint assoc {A} (k : string) (l : list (string * A)) : option A :=
  match l with
  | [] => None
  | (k', v) :: l' => if String.eqb k k' then Some v else assoc k l'
  end.

(** [len(v)] *)
Definition py_len (v : pyval) : result nat :=
  match v with
  | PyStr s => Ok (String.length s)
  | PySeq l => Ok (length l)
  | PyDict d => Ok (length d)
  | PyObj _ (Some l) => Ok (length l)
  | _ => Raise TypeError
  end.

Definition index_list (l : list pyval) (i : nat) : result pyval :=
  match l !! i with
  | Some x => Ok x
  | None => Raise IndexError
  end.

(** [v[i]] for a non-negative integer [i] *)
Definition py_getitem (v : pyval) (i : nat) : result pyval :=
  match v with
  | PySeq l => index_list l i
  | PyObj _ (Some l) => index_list l i
  | PyStr s =>
      match String.get i s with
      | Some c => Ok (PyStr (String c EmptyString))
      | None => Raise IndexError
      end
  | PyDict _ => Raise KeyError
  | _ => Raise TypeError
  end.

(** [v[k]] for a string key [k] *)
Definition py_getkey (v : pyval) (k : string) : result pyval :=
  match v with
  | PyDict d =>
      match assoc k d with
      | Some x => Ok x
      | None => Raise KeyError
      end
  | _ => Raise TypeError
  end.

(** [v[1:]]; the slice of an indexable object keeps its items only. *)
Definition py_slice_from1 (v : pyval) : result pyval :=
  match v with
  | PySeq l => Ok (PySeq (drop 1 l))
  | PyObj _ (Some l) => Ok (PySeq (drop 1 l))
  | PyStr s => Ok (PyStr (String.substring 1 (String.length s - 1) s))
  | _ => Raise TypeError
  end.

(** [v.name] *)
Definition py_getattr (v : pyval) (name : string) : result pyval :=
  match v with
  | PyObj attrs _ =>
      match assoc name attrs with
      | Some x => Ok x
      | None => Raise AttributeError
      end
  | _ => Raise AttributeError
  end.

(** [getattr(v, name, default)] *)
Definition py_getattr_default (v : pyval) (name : string) (default : pyval) : pyval :=
  match py_getattr v name with
  | Ok x => x
  | Raise _ => default
  end.

Definition is_none (v : pyval) : bool :=
  match v with
  | PyNone => true
  | _ => false
  end.

(** Truth value of [v] *)
Definition py_truthy (v : pyval) : bool :=
  match v with
  | PyNone => false
  | PyNum q => negb (Qeq_bool q 0)
  | PyStr s => negb (String.eqb s "")
  | PySeq l => negb (Nat.eqb (length l) 0)
  | PyDict d => negb (Nat.eqb (length d) 0)
  | PyObj _ (Some l) => negb (Nat.eqb (length l) 0)
  | PyObj _ None => true
  end.

(** [a or b] *)
Definition py_or (a b : pyval) : pyval := if py_truthy a then a else b.

(** [v == n] for an integer literal [n] *)
Definition py_eq_int (v : pyval) (n : nat) : bool :=
  match v with
  | PyNum q => Qeq_bool q (inject_Z (Z.of_nat n))
  | _ => false
  end.

(** ** Computations over the engine *)

(** A call that may touch the engine and may raise: the engine state
    survives an exception. *)
Definition M (E A : Type) : Type := E → result A * E.

Global Instance M_ret {E} : MRet (M E) := fun A a e => (Ok a, e).
Global Instance M_bind {E} : MBind (M E) := fun A B f c e =>
  match c e with
  | (Ok a, e') => f a e'
  | (Raise x, e') => (Raise x, e')
  end.

(** A pure computation run inside [M]. *)
Definition lift {E A} (r : result A) : M E A := fun e => (r, e).

(** [for l in range(L): s = body(l, s)] *)
Fixpoint for_each {E S} (ls : list nat) (body : nat → S → M E S) (s : S) : M E S :=
  match ls with
  | [] => mret s
  | l :: ls' => s' ← body l s; for_each ls' body s'
  end.

Definition for_range {E S} (L : nat) (body : nat → S → M E S) (s : S) : M E S :=
  for_each (seq 0 L) body s.

(** ** The native geometry engine *)

(** Engine handles are opaque pointers; [null] is the value of an
    unset slot of a [c_void_p] array. *)
Definition handle : Type := nat.
Definition null : handle := 0.

Definition coord : Type := list Q.
Definition ring : Type := list coord.

(** Modelled from the spec: the engine's memory, which is not part of
    this module.  A polygon geometry keeps its exterior ring and its
    holes as plain numeric coordinates, a collection keeps its kind
    discriminator and the handles of the parts it owns.  A handle is
    live as long as it is in [live]; the release primitive removes it. *)
Inductive geometry : Type :=
| PolygonGeom (shell : ring) (holes : list ring)
| CollectionGeom (kind : nat) (parts : list handle).

Record engine : Type := Engine {
  live : gmap handle geometry;
  next : handle
}.

Definition engine_init : engine := {| live := ∅; next := 1 |}.

Definition alloc (g : geometry) (e : engine) : handle * engine :=
  (next e, {| live := <[next e := g]> (live e); next := S (next e) |}).

(** Modelled from the spec: [releaseHandle(handle)], the engine's release
    primitive (GEOSGeom_destroy). *)
Definition GEOSGeom_destroy (h : handle) : M engine unit :=
  fun e => (Ok tt, {| live := delete h (live e); next := next e |}).

Definition as_items (v : pyval) : result (list pyval) :=
  match v with
  | PySeq l => Ok l
  | PyObj _ (Some l) => Ok l
  | _ => Raise ShapeError
  end.

Definition as_number (v : pyval) : result Q :=
  match v with
  | PyNum q => Ok q
  | _ => Raise ShapeError
  end.

Definition require (b : bool) : result unit :=
  if b then Ok tt else Raise ShapeError.

Definition as_coord (v : pyval) : result coord :=
  items ← as_items v;
  c ← mapM as_number items;
  _ ← require (Nat.eqb (length c) 2 || Nat.eqb (length c) 3);
  mret c.

Definition as_ring (v : pyval) : result ring :=
  items ← as_items v;
  r ← mapM as_coord items;
  _ ← require (negb (Nat.eqb (length r) 0));
  mret r.

Definition as_rings (v : pyval) : result (list ring) :=
  items ← as_items v;
  mapM as_ring items.

Definition ring_ndim (r : ring) : nat :=
  match r with
  | c :: _ => length c
  | [] => 0
  end.

(** Modelled from the spec: the single-polygon ring builder
    [shapely.geometry.polygon.geos_polygon_from_py], which is not part of
    this module.  It consumes a shell coordinate sequence and a sequence
    of hole coordinate sequences and returns a polygon handle and the
    inferred dimensionality; the shell and every hole must be non-empty
    and every coordinate must have length 2 or 3, otherwise it fails and
    builds nothing.  Rings are kept as supplied. *)
Definition geos_polygon_from_py (shell holes : pyval) : M engine (handle * pyval) :=
  fun e =>
    match (sh ← as_ring shell; hs ← as_rings holes; mret (sh, hs)) with
    | Ok (sh, hs) =>
        let '(h, e') := alloc (PolygonGeom sh hs) e in
        (Ok (h, PyInt (ring_ndim sh)), e')
    | Raise x => (Raise x, e)
    end.

(** Modelled from the spec: [createCollection(kindDiscriminator,
    handleArray, count)], the engine primitive GEOSGeom_createCollection.
    The new collection owns the first [count] handles of the array. *)
Definition GEOSGeom_createCollection (kind : nat) (subs : list handle) (count : nat)
  : M engine handle :=
  fun e => let '(h, e') := alloc (CollectionGeom kind (take count subs)) e in (Ok h, e').

(** ** The assemblers *)

Section Assemblers.

(** The assemblers are written against the two calls they make into the
    rest of the library: the polygon builder and the engine's
    collection primitive. *)
Context {E : Type}.
Variable polygon_from_py : pyval → pyval → M E (handle * pyval).
Variable createCollection : nat → list handle → nat → M E handle.

(** The loop shared by the two assemblers: [subs = (c_void_p * L)()],
    then for each [l] in [range(L)] the shell and holes of [ob[l]] are
    picked by [shape_of], the polygon is built, and its handle is
    stored in [subs[l]].  The dimensionality the builder reports is
    dropped. *)
Definition collect_parts (shape_of : pyval → result (pyval * pyval))
    (ob : pyval) (L : nat) : M E (list handle) :=
  for_range L (fun l subs =>
    p ← lift (py_getitem ob l);
    '(shell, holes) ← lift (shape_of p);
    '(geom, ndims) ← polygon_from_py shell holes;
    mret (<[l := geom]> subs)) (replicate L null).

(** The same work read part by part, without the array. *)
Definition build_part (shape_of : pyval → result (pyval * pyval)) (p : pyval)
  : M E handle :=
  '(shell, holes) ← lift (shape_of p);
  '(geom, ndims) ← polygon_from_py shell holes;
  mret geom.

Fixpoint build_parts (shape_of : pyval → result (pyval * pyval)) (ps : list pyval)
  : M E (list handle) :=
  match ps with
  | [] => mret []
  | p :: ps' =>
      h ← build_part shape_of p;
      hs ← build_parts shape_of ps';
      mret (h :: hs)
  end.

(** [geos_polygon_from_py(ob[l][0], ob[l][1:])] *)
Definition part_shape_py (p : pyval) : result (pyval * pyval) :=
  shell ← py_getitem p 0;
  holes ← py_slice_from1 p;
  mret (shell, holes).

(** [N = len(ob[0][0][0])] *)
Definition first_ndim_py (ob : pyval) : result nat :=
  part ← py_getitem ob 0;
  shell ← py_getitem part 0;
  c ← py_getitem shell 0;
  py_len c.

Definition geos_multipolygon_from_py (ob : pyval) : M E (handle * pyval) :=
  L ← lift (py_len ob);
  _ ← lift (py_assert (Nat.leb 1 L));
  N ← lift (first_ndim_py ob);
  _ ← lift (py_assert (Nat.eqb N 2 || Nat.eqb N 3));
  subs ← collect_parts part_shape_py ob L;
  c ← createCollection 6 subs L;
  mret (c, PyInt N).

(** [obs = getattr(ob, 'geoms', None) or ob] *)
Definition parts_of (ob : pyval) : pyval :=
  py_or (py_getattr_default ob "geoms" PyNone) ob.

(** The [try ... except TypeError] around the exemplar. *)
Definition exemplar_ndim (exemplar : pyval) : result pyval :=
  try_except
    (shell ← py_getitem exemplar 0;
     c ← py_getitem shell 0;
     n ← py_len c;
     mret (PyInt n))
    TypeError
    (py_getattr exemplar "_ndim").

(** The shell and holes of one part, as the loop body picks them. *)
Definition part_shape_polygons (p : pyval) : result (pyval * pyval) :=
  let shell := py_getattr_default p "exterior" PyNone in
  shell ← (if is_none shell then py_getitem p 0 else Ok shell);
  let holes := py_getattr_default p "interiors" PyNone in
  holes ← (if is_none holes then py_getitem p 1 else Ok holes);
  mret (shell, holes).

(** The function after its first line, on the chosen parts [obs]. *)
Definition assemble_polygons (obs : pyval) : M E (handle * pyval) :=
  L ← lift (py_len obs);
  _ ← lift (py_assert (Nat.leb 1 L));
  exemplar ← lift (py_getitem obs 0);
  N ← lift (exemplar_ndim exemplar);
  _ ← lift (py_assert (py_eq_int N 2 || py_eq_int N 3));
  subs ← collect_parts part_shape_polygons obs L;
  c ← createCollection 6 subs L;
  mret (c, N).

Definition geos_multipolygon_from_polygons (ob : pyval) : M E (handle * pyval) :=
  assemble_polygons (parts_of ob).

(** *** [MultiPolygon] *)

Record MultiPolygon : Type := {
  _geom : option handle;
  _ndim : option pyval
}.

(** The object as [super().__init__()] leaves it: no engine handle. *)
Definition base_init : MultiPolygon := {| _geom := None; _ndim := None |}.

Definition MultiPolygon_init (polygons : pyval) (context_type : string)
  : M E MultiPolygon :=
  let self := base_init in
  if negb (py_truthy polygons) then mret self
  else if String.eqb context_type "polygons" then
    '(g, n) ← geos_multipolygon_from_polygons polygons;
    mret {| _geom := Some g; _ndim := Some n |}
  else if String.eqb context_type "geojson" then
    '(g, n) ← geos_multipolygon_from_py polygons;
    mret {| _geom := Some g; _ndim := Some n |}
  else mret self.

End Assemblers.

(** *** The derived views of a [MultiPolygon] *)

Record polygon_view : Type := {
  exterior : ring;
  interiors : list ring
}.

Definition view_of (e : engine) (h : handle) : option polygon_view :=
  match live e !! h with
  | Some (PolygonGeom sh hs) => Some {| exterior := sh; interiors := hs |}
  | _ => None
  end.

(** Modelled from the spec: [BaseMultipartGeometry.geoms], which is not
    part of this module: the parts of the collection behind the object's
    handle, in part order; an object without a handle has no parts. *)
Definition geoms (self : MultiPolygon) (e : engine) : list polygon_view :=
  match _geom self with
  | None => []
  | Some h =>
      match live e !! h with
      | Some (CollectionGeom _ parts) => omap (view_of e) parts
      | _ => []
      end
  end.

(** [tuple(r.coords)]: plain numeric tuples. *)
Definition coords_tuple (r : ring) : pyval :=
  PySeq (map (fun c => PySeq (map PyNum c)) r).

Definition geo_interface (self : MultiPolygon) (e : engine) : pyval :=
  let allcoords :=
    foldl (fun allcoords geom =>
             let coords := [] in
             let coords := coords ++ [coords_tuple (exterior geom)] in
             let coords :=
               foldl (fun coords hole => coords ++ [coords_tuple hole])
                     coords (interiors geom) in
             allcoords ++ [PySeq coords])
          [] (geoms self e) in
  PyDict [("type", PyStr "MultiPolygon"); ("coordinates", PySeq allcoords)].

(** ** [MultiPolygonAdapter] *)

(** The function stored in [self.factory]. *)
Inductive factory_fn : Type :=
| factory_from_py
| factory_from_polygons.

(** [context] and [factory] are the attributes this module sets.
    Modelled from the spec: [resolved] and [resolutions] stand for the
    state of [CachingGeometryProxy], which is not part of this module:
    the memo of the one resolution, and a counter of the resolutions
    performed. *)
Record MultiPolygonAdapter : Type := {
  context : pyval;
  factory : option factory_fn;
  resolved : option (handle * pyval);
  resolutions : nat
}.

(** The class attributes before [__init__] runs. *)
Definition adapter_new : MultiPolygonAdapter :=
  {| context := PyNone; factory := None; resolved := None; resolutions := 0 |}.

Definition set_context (self : MultiPolygonAdapter) (c : pyval) : MultiPolygonAdapter :=
  {| context := c; factory := factory self;
     resolved := resolved self; resolutions := resolutions self |}.

Definition set_factory (self : MultiPolygonAdapter) (f : factory_fn) : MultiPolygonAdapter :=
  {| context := context self; factory := Some f;
     resolved := resolved self; resolutions := resolutions self |}.

Definition MultiPolygonAdapter_init (context : pyval) (context_type : string)
  : MultiPolygonAdapter :=
  let self := set_context adapter_new context in
  if String.eqb context_type "geojson" then set_factory self factory_from_py
  else if String.eqb context_type "polygons" then set_factory self factory_from_polygons
  else self.

Definition asMultiPolygon (context : pyval) : MultiPolygonAdapter :=
  MultiPolygonAdapter_init context "polygons".

(** The array-protocol branch of the [_ndim] property. *)
Definition ndim_from_array (ctx : pyval) : result pyval :=
  part ← py_getitem ctx 0;
  shell ← py_getitem part 0;
  array ← py_getattr shell "__array_interface__";
  shape ← py_getkey array "shape";
  n ← py_getitem shape 1;
  _ ← py_assert (py_eq_int n 2 || py_eq_int n 3);
  mret n.

(** The list branch of the [_ndim] property. *)
Definition ndim_from_list (ctx : pyval) : result pyval :=
  part ← py_getitem ctx 0;
  shell ← py_getitem part 0;
  c ← py_getitem shell 0;
  n ← py_len c;
  mret (PyInt n).

Definition MultiPolygonAdapter_ndim (self : MultiPolygonAdapter) : result pyval :=
  try_except (ndim_from_array (context self)) AttributeError
             (ndim_from_list (context self)).

Definition call_factory (f : factory_fn) (ctx : pyval) : M engine (handle * pyval) :=
  match f with
  | factory_from_py =>
      geos_multipolygon_from_py geos_polygon_from_py GEOSGeom_createCollection ctx
  | factory_from_polygons =>
      geos_multipolygon_from_polygons geos_polygon_from_py GEOSGeom_createCollection ctx
  end.

(** Modelled from the spec: the read of the geometry behind an adapter
    ([CachingGeometryProxy._geom], not part of this module).  An
    unresolved adapter runs its factory on the context and keeps the
    resulting pair; a resolved one answers from the memo.  A failed
    resolution leaves the adapter unresolved. *)
Definition adapter_geom (self : MultiPolygonAdapter)
  : M engine (handle * MultiPolygonAdapter) :=
  match resolved self with
  | Some (h, _) => mret (h, self)
  | None =>
      match factory self with
      | None => lift (Raise TypeError)
      | Some f =>
          '(h, n) ← call_factory f (context self);
          mret (h, {| context := context self; factory := factory self;
                      resolved := Some (h, n);
                      resolutions := S (resolutions self) |})
      end
  end.

(** What a client does with an adapter. *)
Inductive adapter_op : Type :=
| ReadGeom
| ReadNdim
| Mutate (c : pyval).

Inductive observation : Type :=
| SawGeom (r : result handle)
| SawNdim (r : result pyval)
| Mutated.

Definition adapter_step (op : adapter_op) (self : MultiPolygonAdapter) (e : engine)
  : observation * MultiPolygonAdapter * engine :=
  match op with
  | ReadGeom =>
      match adapter_geom self e with
      | (Ok (h, self'), e') => (SawGeom (Ok h), self', e')
      | (Raise x, e') => (SawGeom (Raise x), self, e')
      end
  | ReadNdim => (SawNdim (MultiPolygonAdapter_ndim self), self, e)
  | Mutate c => (Mutated, set_context self c, e)
  end.

Fixpoint adapter_run (ops : list adapter_op) (self : MultiPolygonAdapter) (e : engine)
  : list observation * MultiPolygonAdapter * engine :=
  match ops with
  | [] => ([], self, e)
  | op :: ops' =>
      let '(o, self', e') := adapter_step op self e in
      let '(os, self'', e'') := adapter_run ops' self' e' in
      (o :: os, self'', e'')
  end.

(** ** Shape resolution as the specification words it *)

Inductive input_mode : Type :=
| EXPLICIT
| GEOINTERFACE.

(** The resolution the code performs in each mode. *)
Definition resolve_shape (mode : input_mode) : pyval → result (pyval * pyval) :=
  match mode with
  | EXPLICIT => part_shape_polygons
  | GEOINTERFACE => part_shape_py
  end.

(** The resolution order of the specification, first match wins: an
    [exterior] attribute gives the shell and the holes are [interiors]
    if present, else empty; otherwise [p[0]] is the shell and the holes
    are all remaining elements (geo-interface) or [p[1]] (plain tuple). *)
Definition spec_resolve_shape (mode : input_mode) (p : pyval) : result (pyval * pyval) :=
  match py_getattr p "exterior" with
  | Ok shell =>
      match py_getattr p "interiors" with
      | Ok holes => Ok (shell, holes)
      | Raise _ => Ok (shell, PySeq [])
      end
  | Raise _ =>
      shell ← py_getitem p 0;
      holes ← match mode with
              | GEOINTERFACE => py_slice_from1 p
              | EXPLICIT => py_getitem p 1
              end;
      mret (shell, holes)
  end.

(** ** The WKT formatting boundary *)

Module WKT.

(** Modelled from the spec: the WKT writer ([shapely.wkt.dumps] and the
    [wkt] property), which is not part of this module; only its tests
    are.  Numbers are exact rationals, rounded half-to-even at the
    sixteenth fractional digit. *)

Definition digit_char (d : Z) : ascii :=
  ascii_of_nat (48 + Z.to_nat d).

(** The [k] low decimal digits of [n], most significant first. *)
Fixpoint fixed_digits (k : nat) (n : Z) : string :=
  match k with
  | O => EmptyString
  | S k' => fixed_digits k' (n / 10) +:+ String (digit_char (n mod 10)) EmptyString
  end.

Definition decimal (n : Z) : string :=
  NilZero.string_of_uint (N.to_uint (Z.to_N n)).

Definition scale : Z := 10 ^ 16.

(** [q * 10^16] rounded to the nearest integer, ties to even. *)
Definition scaled (q : Q) : Z :=
  let n := (Qnum q * scale)%Z in
  let d := Zpos (Qden q) in
  let fl := (n / d)%Z in
  let r := (n mod d)%Z in
  if (2 * r <? d)%Z then fl
  else if (d <? 2 * r)%Z then (fl + 1)%Z
  else if Z.even fl then fl else (fl + 1)%Z.

Definition sign_of (z : Z) : string :=
  if (z <? 0)%Z then "-" else "".

Definition integer_part (q : Q) : string :=
  sign_of (scaled q) +:+ decimal (Z.abs (scaled q) / scale).

Definition fraction_part (q : Q) : string :=
  fixed_digits 16 (Z.abs (scaled q) mod scale).

Definition format_number (q : Q) : string :=
  integer_part q +:+ "." +:+ fraction_part q.

Definition format_point (c : coord) : string :=
  String.concat " " (map format_number c).

Fixpoint coord_eqb (a b : coord) : bool :=
  match a, b with
  | [], [] => true
  | x :: a', y :: b' => Qeq_bool x y && coord_eqb a' b'
  | _, _ => false
  end.

(** First and last coordinates identical. *)
Definition closed (cs : list coord) : bool :=
  match head cs, last cs with
  | Some c0, Some cl => coord_eqb c0 cl
  | _, _ => false
  end.

Definition is_linearring (cs : list coord) : bool :=
  Nat.leb 4 (length cs) && closed cs.

Definition tag (cs : list coord) : string :=
  if is_linearring cs then "LINEARRING" else "LINESTRING".

Definition body (cs : list coord) : string :=
  String.concat ", " (map format_point cs).

Definition dumps (cs : list coord) : string :=
  tag cs +:+ " (" +:+ body cs +:+ ")".



(** The coordinates of [LineString(...)] given as integers. *)
Definition ints (l : list (list Z)) : list coord := map (map inject_Z) l.

End WKT.

(** ** Vocabulary of the statements *)

(** A polygon part as numbers: its shell and its holes. *)
Definition part : Type := ring * list ring.

Definition valid_ring (r : ring) : Prop :=
  r ≠ [] ∧ Forall (fun c : coord => length c = 2 ∨ length c = 3) r.

Definition valid_part (p : part) : Prop :=
  valid_ring p.1 ∧ Forall valid_ring p.2.

(** The part as the docstring of [MultiPolygon] writes it: the tuple
    [(shell, holes)]. *)
Definition tuple_part (p : part) : pyval :=
  PySeq [coords_tuple p.1; PySeq (map coords_tuple p.2)].

(** The part as geo-interface coordinates: [(shell, hole, hole, ...)]. *)
Definition geojson_part (p : part) : pyval :=
  PySeq (coords_tuple p.1 :: map coords_tuple p.2).

(** The export expected for [parts]: per part, in order, the exterior
    ring and then the holes. *)
Definition export_of (parts : list part) : pyval :=
  PyDict [("type", PyStr "MultiPolygon");
          ("coordinates",
           PySeq (map (fun p : part => PySeq (coords_tuple p.1 :: map coords_tuple p.2))
                      parts))].

(** The input [p] resolves, under [shape_of], to a shell and holes that
    the builder reads as the polygon [poly]. *)
Definition decodes (shape_of : pyval → result (pyval * pyval)) (p : pyval) (poly : part)
  : Prop :=
  ∃ shell holes, shape_of p = Ok (shell, holes)
                 ∧ as_ring shell = Ok poly.1 ∧ as_rings holes = Ok poly.2.

(** Building the part [p] fails with [x]: in the resolution of its shape
    or in the builder. *)
Definition fails_with (shape_of : pyval → result (pyval * pyval)) (p : pyval) (x : exn)
  : Prop :=
  shape_of p = Raise x
  ∨ ∃ shell holes, shape_of p = Ok (shell, holes)
                   ∧ (sh ← as_ring shell; hs ← as_rings holes; mret (sh, hs)) = Raise x.

(** The engine after the polygons [ps] were allocated one after the other. *)
Fixpoint alloc_polys (ps : list part) (e : engine) : engine :=
  match ps with
  | [] => e
  | p :: ps' => alloc_polys ps' (alloc (PolygonGeom p.1 p.2) e).2
  end.

Definition assembler (mode : input_mode) : pyval → M engine (handle * pyval) :=
  match mode with
  | EXPLICIT =>
      geos_multipolygon_from_polygons geos_polygon_from_py GEOSGeom_createCollection
  | GEOINTERFACE =>
      geos_multipolygon_from_py geos_polygon_from_py GEOSGeom_createCollection
  end.

Definition context_type_of (mode : input_mode) : string :=
  match mode with
  | EXPLICIT => "polygons"
  | GEOINTERFACE => "geojson"
  end.

(** The assertions before the loop pass on the parts [items]. *)
Definition preamble_ok (mode : input_mode) (items : list pyval) : Prop :=
  match mode with
  | EXPLICIT =>
      ∃ exemplar N, items !! 0 = Some exemplar ∧ exemplar_ndim exemplar = Ok N
                    ∧ py_eq_int N 2 || py_eq_int N 3 = true
  | GEOINTERFACE =>
      ∃ n, first_ndim_py (PySeq items) = Ok n ∧ Nat.eqb n 2 || Nat.eqb n 3 = true
  end.

(** What the operations [ops] show on a resolved adapter [self] whose
    memo holds the handle [h]: a geometry read answers [h], a
    dimensionality read probes the context as it is at that moment. *)
Fixpoint resolved_trace (h : handle) (self : MultiPolygonAdapter) (ops : list adapter_op)
  : list observation :=
  match ops with
  | [] => []
  | ReadGeom :: ops' => SawGeom (Ok h) :: resolved_trace h self ops'
  | ReadNdim :: ops' =>
      SawNdim (MultiPolygonAdapter_ndim self) :: resolved_trace h self ops'
  | Mutate c :: ops' => Mutated :: resolved_trace h (set_context self c) ops'
  end.

(** The context the operations [ops] leave behind. *)
Fixpoint final_context (ctx : pyval) (ops : list adapter_op) : pyval :=
  match ops with
  | [] => ctx
  | Mutate c :: ops' => final_context c ops'
  | _ :: ops' => final_context ctx ops'
  end.

(** ** Sample inputs and auxiliary notions *)


Definition unit_square : ring :=
  [[0; 0]; [0; 1]; [1; 1]; [1; 0]]%Q.

Definition unit_square_part : part := (unit_square, []).

(** A part whose shell is empty: the builder refuses it. *)
Definition empty_shell_part : pyval := PySeq [PySeq []; PySeq []].

Definition view_of_part (p : part) : polygon_view :=
  {| exterior := p.1; interiors := p.2 |}.

(** An object that has an [exterior] but no [interiors] and cannot be
    indexed. *)
Definition shell_only_object : pyval :=
  PyObj [("exterior", coords_tuple unit_square)] None.

(** A polygon object: both attributes, not indexable. *)
Definition polygon_object : pyval :=
  PyObj [("exterior", coords_tuple unit_square); ("interiors", PySeq [])] None.

Definition cube_face : ring :=
  [[0; 0; 5]; [0; 1; 5]; [1; 1; 5]; [1; 0; 5]]%Q.

(** The part of the docstring of [MultiPolygon]: a unit square with one
    square hole. *)
Definition docstring_part : part :=
  (unit_square, [[[1 # 10; 1 # 10]; [1 # 10; 2 # 10]; [2 # 10; 2 # 10]; [2 # 10; 1 # 10]]]%Q).


(** A multi-part object: not indexable, its parts under [geoms]. *)
Definition multi_object : pyval :=
  PyObj [("geoms", PySeq [tuple_part unit_square_part])] None.


(** ** [MultiPolygon.svg] *)

Section Svg.

(** [str(x)] of a float, which the format fields apply to a coordinate
    and to the stroke width. *)
Variable str_float : Q → string.

Definition dquote : string := String (ascii_of_nat 34) EmptyString.
Definition newline : string := String (ascii_of_nat 10) EmptyString.

(** The format with fields 0 and 1 applied to the unpacked coordinate:
    its first two entries joined by a comma; a coordinate with fewer
    entries has no field 1 (or 0) and raises [IndexError]. *)
Definition format_xy (c : coord) : result string :=
  match c with
  | x :: y :: _ => Ok (str_float x +:+ "," +:+ str_float y)
  | _ => Raise IndexError
  end.

(** The path of one ring from its formatted points: [coords[0]] after
    [M], the points [coords[1:]] joined by [L]. *)
Definition ring_path (coords : list string) : result string :=
  match coords with
  | [] => Raise IndexError
  | c0 :: rest => Ok ("M " +:+ c0 +:+ " L " +:+ String.concat " L " rest +:+ " z")
  end.

(** The group element, with field 0 the stroke width, field 1 the path
    and field 2 the fill colour. *)
Definition svg_group (width path fill : string) : string :=
  "<g fill-rule=" +:+ dquote +:+ "evenodd" +:+ dquote
  +:+ " fill=" +:+ dquote +:+ fill +:+ dquote
  +:+ " stroke=" +:+ dquote +:+ "#555555" +:+ dquote +:+ newline
  +:+ "                stroke-width=" +:+ dquote +:+ width +:+ dquote
  +:+ " opacity=" +:+ dquote +:+ "0.6" +:+ dquote +:+ ">" +:+ newline
  +:+ "                <path d=" +:+ dquote +:+ path +:+ dquote +:+ " /></g>".

(** The body of the loop over the parts. *)
Definition svg_part (scale_factor : Q) (is_valid : bool) (part : polygon_view)
  : result string :=
  exterior_coords ← (ext ← mapM format_xy (exterior part); mret [ext]);
  interior_coords ← mapM (mapM format_xy) (interiors part);
  paths ← mapM ring_path (exterior_coords ++ interior_coords);
  let path := String.concat " " paths in
  mret (svg_group (str_float (2 * scale_factor)%Q) path
          (if is_valid then "#66cc99" else "#ff3333")).

(** [svg] on the parts [self.geoms] yields, with the validity flag the
    engine answers for [self.is_valid]. *)
Definition svg (parts : list polygon_view) (scale_factor : Q) (is_valid : bool)
  : result string :=
  groups ← mapM (svg_part scale_factor is_valid) parts;
  mret (String.concat newline groups).

End Svg.

(** The point without its entries after the second. *)
Definition planar (c : coord) : coord := take 2 c.

Definition planar_view (g : polygon_view) : polygon_view :=
  {| exterior := map planar (exterior g);
     interiors := map (map planar) (interiors g) |}.

(** A ring [svg] can draw: at least one point, every point with at least
    two entries. *)
Definition drawable_ring (r : ring) : bool :=
  negb (Nat.eqb (length r) 0) && forallb (fun c : coord => Nat.leb 2 (length c)) r.

Definition drawable (g : polygon_view) : bool :=
  drawable_ring (exterior g) && forallb drawable_ring (interiors g).

(** ** Sample collaborators *)

(** A polygon builder that numbers the polygons it is asked for, and a
    collection primitive that does the same: the engine is the count. *)
Definition counting_builder (shell holes : pyval) : M nat (handle * pyval) :=
  fun n => (Ok (S n, PyNone), S n).

Definition counting_collection (kind : nat) (subs : list handle) (count : nat)
  : M nat handle :=
  fun n => (Ok (S n), S n).

(** The same part in the two input shapes: the tuple [(shell, holes)]
    and the geo-interface coordinates [(shell, hole, hole, ...)]. *)
Definition corresponds (p q : pyval) : Prop :=
  ∃ s hs, p = PySeq [s; PySeq hs] ∧ q = PySeq (s :: hs).

(** Two parts of a polygons-mode input that agree on their first two
    elements. *)
Definition same_first_two (p p' : pyval) : Prop :=
  ∃ s h r r', p = PySeq (s :: h :: r) ∧ p' = PySeq (s :: h :: r').

(** * Properties *)

(** ** The loop of the assemblers *)

Ltac unfold_m :=
  unfold mbind, mret, M_bind, M_ret, result_bind, result_ret, lift in *.

Section LoopFacts.

Context {E : Type}.
Variable polygon_from_py : pyval → pyval → M E (handle * pyval).

Lemma insert_next_slot (done : list handle) (n : nat) (g : handle) :
  <[length done := g]> (done ++ replicate (S n) null)
  = (done ++ [g]) ++ replicate n null.
Proof.
  rewrite insert_app_r_alt by lia.
  rewrite Nat.sub_diag. simpl. by rewrite <- app_assoc.
Qed.

(** The array loop stores, slot by slot, the handles that building the
    parts one after the other returns. *)
Lemma for_each_build_parts shape_of (ob : pyval) (items : list pyval) :
  (∀ l x, items !! l = Some x → py_getitem ob l = Ok x) →
  ∀ (n : nat) (done : list handle) (e : E),
    length done + n = length items →
    for_each (seq (length done) n)
      (fun l subs =>
         p ← lift (py_getitem ob l);
         '(shell, holes) ← lift (shape_of p);
         '(geom, ndims) ← polygon_from_py shell holes;
         mret (<[l := geom]> subs))
      (done ++ replicate n null) e
    = (hs ← build_parts polygon_from_py shape_of (drop (length done) items);
       mret (done ++ hs)) e.
Proof.
  intros Hget n. induction n as [|n IH]; intros done e Hlen.
  - simpl. rewrite drop_ge by lia. simpl. unfold_m. by rewrite !app_nil_r.
  - destruct (lookup_lt_is_Some_2 items (length done)) as [x Hx]; [lia|].
    rewrite (drop_S _ _ _ Hx). cbn [seq for_each build_parts].
    unfold build_part. unfold_m. rewrite (Hget _ _ Hx).
    destruct (shape_of x) as [[shell holes]|err]; [|done].
    destruct (polygon_from_py shell holes e) as [[[geom ndims]|err] e1]; [|done].
    rewrite insert_next_slot.
    specialize (IH (done ++ [geom]) e1).
    rewrite length_app in IH. simpl in IH.
    replace (length done + 1) with (S (length done)) in IH by lia.
    rewrite IH by lia. unfold_m.
    destruct (build_parts _ _ _ e1) as [[hs|err] e2]; [|done].
    by rewrite <- app_assoc.
Qed.

Lemma collect_parts_build_parts shape_of (ob : pyval) (items : list pyval) (e : E) :
  (∀ l x, items !! l = Some x → py_getitem ob l = Ok x) →
  collect_parts polygon_from_py shape_of ob (length items) e
  = build_parts polygon_from_py shape_of items e.
Proof.
  intros Hget. unfold collect_parts, for_range.
  pose proof (for_each_build_parts shape_of ob items Hget (length items) [] e) as H.
  simpl in H. rewrite H by done. unfold_m.
  by destruct (build_parts _ _ _ e) as [[hs|err] e2].
Qed.

End LoopFacts.


Lemma py_assert_ok (b : bool) : py_assert b = Ok tt → b = true.
Proof. by destruct b. Qed.

Lemma parts_of_seq (items : list pyval) : parts_of (PySeq items) = PySeq items.
Proof. reflexivity. Qed.

Section AssemblerFacts.

Context {E : Type}.
Variable polygon_from_py : pyval → pyval → M E (handle * pyval).
Variable createCollection : nat → list handle → nat → M E handle.

Abbreviation from_py := (geos_multipolygon_from_py polygon_from_py createCollection).
Abbreviation from_polygons :=
  (geos_multipolygon_from_polygons polygon_from_py createCollection).
Abbreviation assemble := (assemble_polygons polygon_from_py createCollection).
Abbreviation init := (MultiPolygon_init polygon_from_py createCollection).



Lemma from_py_inv ob e h N e' :
  from_py ob e = (Ok (h, N), e') →
  ∃ L n, py_len ob = Ok L ∧ 1 ≤ L ∧ first_ndim_py ob = Ok n
         ∧ N = PyInt n ∧ (n = 2 ∨ n = 3).
Proof.
  unfold geos_multipolygon_from_py. unfold_m.
  destruct (py_len ob) as [L|err]; [|done].
  destruct (py_assert (Nat.leb 1 L)) as [[]|err] eqn:HL; [|done].
  destruct (first_ndim_py ob) as [n|err]; [|done].
  destruct (py_assert (_ || _)) as [[]|err] eqn:HN; [|done].
  destruct (collect_parts _ _ _ _ e) as [[subs|err] e1]; [|done].
  destruct (createCollection 6 subs L e1) as [[c|err] e2]; [|done].
  intros [= <- <- <-]. exists L, n.
  apply py_assert_ok in HL, HN.
  apply Nat.leb_le in HL. apply orb_true_iff in HN.
  rewrite !Nat.eqb_eq in HN. repeat split; auto.
Qed.

Lemma assemble_inv obs e h N e' :
  assemble obs e = (Ok (h, N), e') →
  ∃ L exemplar, py_len obs = Ok L ∧ 1 ≤ L ∧ py_getitem obs 0 = Ok exemplar
                ∧ exemplar_ndim exemplar = Ok N
                ∧ (py_eq_int N 2 = true ∨ py_eq_int N 3 = true).
Proof.
  unfold assemble_polygons. unfold_m.
  destruct (py_len obs) as [L|err]; [|done].
  destruct (py_assert (Nat.leb 1 L)) as [[]|err] eqn:HL; [|done].
  destruct (py_getitem obs 0) as [exemplar|err] eqn:Hex; [|done].
  destruct (exemplar_ndim exemplar) as [n|err] eqn:Hn; [|done].
  destruct (py_assert (_ || _)) as [[]|err] eqn:HN; [|done].
  destruct (collect_parts _ _ _ _ e) as [[subs|err] e1]; [|done].
  destruct (createCollection 6 subs L e1) as [[c|err] e2]; [|done].
  intros [= <- <- <-]. exists L, exemplar.
  apply py_assert_ok in HL, HN.
  apply Nat.leb_le in HL. apply orb_true_iff in HN. repeat split; auto.
Qed.





Lemma init_recognised_handle ob ctx obj e e' :
  py_truthy ob = true → ctx = "polygons" ∨ ctx = "geojson" →
  init ob ctx e = (Ok obj, e') → ∃ g, _geom obj = Some g.
Proof.
  intros Ht Hctx. unfold MultiPolygon_init. rewrite Ht. simpl.
  destruct Hctx as [-> | ->]; simpl; unfold_m.
  - destruct (from_polygons ob e) as [[[g n]|err] e1]; [|done].
    intros [= <- <-]. by exists g.
  - destruct (from_py ob e) as [[[g n]|err] e1]; [|done].
    intros [= <- <-]. by exists g.
Qed.

(** C3 (amended): an empty parts sequence makes either assembler fail
    on its first assertion with the engine untouched, a successful
    assembly has at least one part, and with a recognised context type
    the constructor returns an object without a handle only on the
    no-input path, where no assembler runs. *)
Theorem empty_parts_rejected (ob : pyval) (e : E) :
  (py_len ob = Ok 0 → from_py ob e = (Raise AssertionError, e))
  ∧ (py_len (parts_of ob) = Ok 0 →
     from_polygons ob e = (Raise AssertionError, e))
  ∧ (∀ h N e', from_py ob e = (Ok (h, N), e') →
       ∃ L, py_len ob = Ok L ∧ 1 ≤ L)
  ∧ (∀ h N e', from_polygons ob e = (Ok (h, N), e') →
       ∃ L, py_len (parts_of ob) = Ok L ∧ 1 ≤ L)
  ∧ (py_truthy ob = false → ∀ ctx, init ob ctx e = (Ok base_init, e))
  ∧ (∀ ctx obj e', ctx = "polygons" ∨ ctx = "geojson" →
       init ob ctx e = (Ok obj, e') → _geom obj = None →
       py_truthy ob = false ∧ obj = base_init ∧ e' = e).
Proof.
  split_and!.
  - intros HL. unfold geos_multipolygon_from_py. unfold_m. by rewrite HL.
  - intros HL. unfold geos_multipolygon_from_polygons, assemble_polygons.
    unfold_m. by rewrite HL.
  - intros h N e' H.
    destruct (from_py_inv _ _ _ _ _ H) as (L & n & ? & ? & _). by exists L.
  - intros h N e' H.
    destruct (assemble_inv _ _ _ _ _ H) as (L & ex & ? & ? & _). by exists L.
  - intros Hf ctx. unfold MultiPolygon_init. by rewrite Hf.
  - intros ctx obj e' Hctx Hinit Hg. destruct (py_truthy ob) eqn:Ht.
    + destruct (init_recognised_handle _ _ _ _ _ Ht Hctx Hinit) as [g Hg'].
      congruence.
    + revert Hinit. unfold MultiPolygon_init. rewrite Ht. simpl. unfold_m.
      by intros [= <- <-].
Qed.

(** C9: a truthy [polygons] argument together with a context type that
    is neither ['polygons'] nor ['geojson'] falls through both [elif]
    branches: the constructor returns normally, the engine is not
    touched and the object has no geometry handle, so it has no parts;
    an adapter built with such a context type keeps its factory unset. *)
Theorem unknown_context_type_ignored (polygons : pyval) (context_type : string)
    (e : E) :
  py_truthy polygons = true →
  context_type ≠ "polygons" → context_type ≠ "geojson" →
  init polygons context_type e = (Ok base_init, e)
  ∧ _geom base_init = None
  ∧ (∀ eng, geoms base_init eng = [])
  ∧ (∀ context,
       MultiPolygonAdapter_init context context_type
       = set_context adapter_new context
       ∧ factory (MultiPolygonAdapter_init context context_type) = None).
Proof.
  intros Ht Hp Hg.
  apply String.eqb_neq in Hp, Hg.
  unfold MultiPolygon_init, MultiPolygonAdapter_init.
  rewrite Ht, Hp, Hg. simpl. by split_and!.
Qed.

(** C10: in polygons mode the parts are taken from the object's [geoms]
    attribute when it has one that is truthy, and from the object
    itself when the attribute is falsy or absent; a multi-part object
    whose [geoms] is a non-empty sequence is therefore assembled
    exactly as that sequence is. *)
Theorem geoms_attribute_preferred (ob : pyval) (e : E) :
  (∀ g, py_getattr ob "geoms" = Ok g → py_truthy g = true →
     parts_of ob = g ∧ from_polygons ob e = assemble g e)
  ∧ (∀ g, py_getattr ob "geoms" = Ok g → py_truthy g = false →
     parts_of ob = ob ∧ from_polygons ob e = assemble ob e)
  ∧ (∀ x, py_getattr ob "geoms" = Raise x →
     parts_of ob = ob ∧ from_polygons ob e = assemble ob e)
  ∧ (∀ parts, py_getattr ob "geoms" = Ok (PySeq parts) → parts ≠ [] →
     from_polygons ob e = from_polygons (PySeq parts) e).
Proof.
  unfold geos_multipolygon_from_polygons, parts_of, py_getattr_default, py_or.
  split_and!.
  - intros g Hg Ht. by rewrite Hg, Ht.
  - intros g Hg Ht. by rewrite Hg, Ht.
  - intros x Hx. by rewrite Hx.
  - intros parts Hg Hne. rewrite Hg. by destruct parts.
Qed.

End AssemblerFacts.

(** ** Construction without a handle *)

(** C3 (counterexample): a non-empty parts sequence with an unrecognised
    context type gives, without error, an object that has no handle and
    no parts: an empty collection reached with input given. *)
Lemma empty_collection_with_input :
  let polygons := PySeq [tuple_part unit_square_part] in
  py_truthy polygons = true
  ∧ MultiPolygon_init geos_polygon_from_py GEOSGeom_createCollection
      polygons "wkb" engine_init
    = (Ok base_init, engine_init)
  ∧ _geom base_init = None
  ∧ geoms base_init engine_init = [].
Proof. by split_and!. Qed.

(** ** The engine under the assemblers *)

Lemma alloc_polys_next ps e : next (alloc_polys ps e) = next e + length ps.
Proof.
  revert e. induction ps as [|p ps IH]; intros e; simpl; [lia|].
  rewrite IH. simpl. lia.
Qed.

Lemma alloc_polys_old ps e h :
  h < next e → live (alloc_polys ps e) !! h = live e !! h.
Proof.
  revert e. induction ps as [|p ps IH]; intros e Hh; [done|].
  simpl. rewrite IH by (simpl; lia). simpl.
  by rewrite lookup_insert_ne by lia.
Qed.

Lemma alloc_polys_lookup ps e i p :
  ps !! i = Some p →
  live (alloc_polys ps e) !! (next e + i) = Some (PolygonGeom p.1 p.2).
Proof.
  revert e i. induction ps as [|p0 ps IH]; intros e i Hi; [done|].
  destruct i as [|i]; simpl in *.
  - injection Hi as ->. rewrite alloc_polys_old by (simpl; lia). simpl.
    rewrite Nat.add_0_r. by rewrite lookup_insert_eq.
  - specialize (IH (alloc (PolygonGeom p0.1 p0.2) e).2 i Hi).
    simpl in IH. by replace (next e + S i) with (S (next e) + i) by lia.
Qed.

Lemma alloc_polys_collections ps e h k parts :
  live (alloc_polys ps e) !! h = Some (CollectionGeom k parts) →
  live e !! h = Some (CollectionGeom k parts).
Proof.
  revert e. induction ps as [|p ps IH]; intros e; [done|].
  simpl. intros H. apply IH in H. simpl in H.
  destruct (decide (next e = h)) as [Heq|Hne].
  - rewrite Heq in H. by rewrite lookup_insert_eq in H.
  - by rewrite lookup_insert_ne in H.
Qed.

Lemma build_part_ok shape_of p poly e :
  decodes shape_of p poly →
  build_part geos_polygon_from_py shape_of p e
  = (Ok (next e), (alloc (PolygonGeom poly.1 poly.2) e).2).
Proof.
  intros (shell & holes & Hs & Hr & Hh).
  unfold build_part, geos_polygon_from_py. unfold_m.
  by rewrite Hs, Hr, Hh.
Qed.

Lemma build_part_fails shape_of p x e :
  fails_with shape_of p x →
  build_part geos_polygon_from_py shape_of p e = (Raise x, e).
Proof.
  unfold build_part, geos_polygon_from_py. unfold_m.
  intros [Hs | (shell & holes & Hs & Hb)]; rewrite Hs; [done|].
  destruct (as_ring shell) as [sh|err]; [|by injection Hb as ->].
  destruct (as_rings holes) as [hs|err]; [done|by injection Hb as ->].
Qed.

(** Parts that decode are built one after the other, each on a fresh
    handle. *)
Lemma build_parts_ok shape_of items polys e :
  Forall2 (decodes shape_of) items polys →
  build_parts geos_polygon_from_py shape_of items e
  = (Ok (seq (next e) (length polys)), alloc_polys polys e).
Proof.
  intros H. revert e. induction H as [|p poly items polys Hp _ IH]; intros e; [done|].
  cbn [build_parts]. unfold_m. rewrite (build_part_ok _ _ _ _ Hp).
  by rewrite IH.
Qed.

(** A failure at some part stops the loop there: the polygons built so
    far stay allocated. *)
Lemma build_parts_fails shape_of good polys bad rest x e :
  Forall2 (decodes shape_of) good polys →
  fails_with shape_of bad x →
  build_parts geos_polygon_from_py shape_of (good ++ bad :: rest) e
  = (Raise x, alloc_polys polys e).
Proof.
  intros H Hbad. revert e.
  induction H as [|p poly items polys Hp _ IH]; intros e.
  - cbn [app build_parts]. unfold_m. by rewrite (build_part_fails _ _ _ _ Hbad).
  - cbn [app build_parts]. unfold_m. rewrite (build_part_ok _ _ _ _ Hp).
    by rewrite IH.
Qed.

Lemma getitem_seq (items : list pyval) l x :
  items !! l = Some x → py_getitem (PySeq items) l = Ok x.
Proof. intros H. simpl. unfold index_list. by rewrite H. Qed.

(** On a plain sequence of parts that passes the assertions, an assembler
    is the part-by-part build followed by the collection call. *)
Lemma assembler_on_seq mode items e :
  preamble_ok mode items →
  ∃ N, assembler mode (PySeq items) e
       = match build_parts geos_polygon_from_py (resolve_shape mode) items e with
         | (Ok subs, e1) =>
             let '(c, e2) := alloc (CollectionGeom 6 (take (length items) subs)) e1 in
             (Ok (c, N), e2)
         | (Raise x, e1) => (Raise x, e1)
         end.
Proof.
  destruct mode; unfold preamble_ok, assembler, resolve_shape.
  - intros (exemplar & N & Hex & HN & Hck). exists N.
    destruct items as [|p items]; [done|].
    simpl in Hex. injection Hex as ->.
    remember (build_parts _ _ _ e) as B eqn:HB.
    unfold geos_multipolygon_from_polygons. rewrite parts_of_seq.
    unfold assemble_polygons. unfold_m. simpl.
    rewrite HN, Hck. simpl.
    rewrite (collect_parts_build_parts _ _ (PySeq (exemplar :: items))
               (exemplar :: items)) by apply getitem_seq.
    rewrite <- HB. destruct B as [[subs|err] e1]; [|done].
    by unfold GEOSGeom_createCollection, alloc.
  - intros (n & Hn & Hck). exists (PyInt n).
    destruct items as [|p items]; [done|].
    remember (build_parts _ _ _ e) as B eqn:HB.
    unfold geos_multipolygon_from_py. unfold_m. simpl.
    rewrite Hn, Hck. simpl.
    rewrite (collect_parts_build_parts _ _ (PySeq (p :: items)) (p :: items))
      by apply getitem_seq.
    rewrite <- HB. destruct B as [[subs|err] e1]; [|done].
    by unfold GEOSGeom_createCollection, alloc.
Qed.

(** ** Failure in the middle of an assembly *)

(** C4 (counterexample): the second of two parts has an empty shell, so
    the builder fails on part 1; the handle built for part 0 was not live
    before the call and is still live after the error. *)
Lemma failed_assembly_leaks_part_0 :
  let ob := PySeq [tuple_part unit_square_part; empty_shell_part] in
  let '(r, e') := assembler EXPLICIT ob engine_init in
  r = Raise ShapeError
  ∧ live engine_init !! 1 = None
  ∧ live e' !! 1 = Some (PolygonGeom unit_square []).
Proof. vm_compute. by split_and!. Qed.

(** C4 (amended): when the parts before part [k] are built and part [k]
    fails, the assembler propagates that error, the [k] handles built so
    far are still live in the engine (the assembler releases nothing),
    and no collection has been created. *)
Theorem failed_assembly_keeps_handles (mode : input_mode)
    (good : list pyval) (polys : list part) (bad : pyval) (rest : list pyval)
    (x : exn) (e : engine) :
  preamble_ok mode (good ++ bad :: rest) →
  Forall2 (decodes (resolve_shape mode)) good polys →
  fails_with (resolve_shape mode) bad x →
  ∃ e', assembler mode (PySeq (good ++ bad :: rest)) e = (Raise x, e')
        ∧ next e' = next e + length good
        ∧ (∀ i p, polys !! i = Some p →
             live e' !! (next e + i) = Some (PolygonGeom p.1 p.2))
        ∧ (∀ h k parts, live e' !! h = Some (CollectionGeom k parts) →
             live e !! h = Some (CollectionGeom k parts)).
Proof.
  intros Hpre Hgood Hbad.
  destruct (assembler_on_seq mode _ e Hpre) as [N ->].
  rewrite (build_parts_fails _ _ _ _ _ _ _ Hgood Hbad).
  exists (alloc_polys polys e). split_and!.
  - done.
  - rewrite alloc_polys_next. by rewrite (Forall2_length _ _ _ Hgood).
  - intros i p. apply alloc_polys_lookup.
  - intros h k parts. apply alloc_polys_collections.
Qed.

(** ** Round trip through the engine *)

Lemma foldl_snoc {A B} (f : A → B) (l : list A) (acc : list B) :
  foldl (fun acc x => acc ++ [f x]) acc l = acc ++ map f l.
Proof.
  revert acc. induction l as [|x l IH]; intros acc; simpl.
  - by rewrite app_nil_r.
  - rewrite IH. by rewrite <- app_assoc.
Qed.

Lemma omap_seq {A B} (f : nat → option B) (g : A → B) (l : list A) (a : nat) :
  (∀ i x, l !! i = Some x → f (a + i) = Some (g x)) →
  omap f (seq a (length l)) = map g l.
Proof.
  revert a. induction l as [|x l IH]; intros a H; [done|].
  simpl. rewrite <- (Nat.add_0_r a) at 1. rewrite (H 0 x eq_refl).
  f_equal. apply IH. intros i y Hi.
  replace (S a + i) with (a + S i) by lia. by apply H.
Qed.

Lemma bind_Ok {A B} (a : A) (f : A → result B) : (Ok a ≫= f) = f a.
Proof. reflexivity. Qed.

Lemma mapM_numbers (c : coord) : mapM as_number (map PyNum c) = Ok c.
Proof.
  induction c as [|q c IH]; [done|].
  cbn [map mapM as_number]. rewrite bind_Ok. by rewrite IH.
Qed.

Lemma as_coord_tuple (c : coord) :
  length c = 2 ∨ length c = 3 → as_coord (PySeq (map PyNum c)) = Ok c.
Proof.
  intros Hc. unfold as_coord. cbn [as_items].
  rewrite bind_Ok, mapM_numbers, bind_Ok. by destruct Hc as [-> | ->].
Qed.

Lemma mapM_coords (r : ring) :
  Forall (fun c : coord => length c = 2 ∨ length c = 3) r →
  mapM as_coord (map (fun c => PySeq (map PyNum c)) r) = Ok r.
Proof.
  induction 1 as [|c r Hc _ IH]; [done|].
  cbn [map mapM]. rewrite (as_coord_tuple _ Hc), bind_Ok. by rewrite IH.
Qed.

Lemma as_ring_tuple (r : ring) : valid_ring r → as_ring (coords_tuple r) = Ok r.
Proof.
  intros [Hne Hr]. unfold as_ring, coords_tuple. cbn [as_items].
  rewrite bind_Ok, (mapM_coords _ Hr), bind_Ok. by destruct r.
Qed.

Lemma as_rings_tuple (hs : list ring) :
  Forall valid_ring hs → as_rings (PySeq (map coords_tuple hs)) = Ok hs.
Proof.
  unfold as_rings. cbn [as_items]. rewrite bind_Ok.
  induction 1 as [|r hs Hr _ IH]; [done|].
  cbn [map mapM]. rewrite (as_ring_tuple _ Hr), bind_Ok. by rewrite IH.
Qed.

Lemma decodes_tuple_part (p : part) :
  valid_part p → decodes part_shape_polygons (tuple_part p) p.
Proof.
  intros [Hs Hh]. exists (coords_tuple p.1), (PySeq (map coords_tuple p.2)).
  split_and!; [done | by apply as_ring_tuple | by apply as_rings_tuple].
Qed.

Lemma decodes_geojson_part (p : part) :
  valid_part p → decodes part_shape_py (geojson_part p) p.
Proof.
  intros [Hs Hh]. exists (coords_tuple p.1), (PySeq (map coords_tuple p.2)).
  split_and!; [done | by apply as_ring_tuple | by apply as_rings_tuple].
Qed.

Lemma valid_part_first_coord (p : part) :
  valid_part p →
  ∃ c r, p.1 = c :: r ∧ (length c = 2 ∨ length c = 3).
Proof.
  intros [[Hne Hr] _]. destruct (p.1) as [|c r]; [done|].
  exists c, r. split; [done|]. by inversion Hr.
Qed.

Lemma preamble_tuple_parts (parts : list part) :
  parts ≠ [] → Forall valid_part parts →
  preamble_ok EXPLICIT (map tuple_part parts).
Proof.
  intros Hne Hv. destruct parts as [|p parts]; [done|].
  inversion Hv as [|? ? Hp _]; subst.
  destruct (valid_part_first_coord _ Hp) as (c & r & Hc & Hlen).
  exists (tuple_part p), (PyInt (length c)). split_and!; [done| |].
  - unfold tuple_part. rewrite Hc. unfold exemplar_ndim. simpl.
    by rewrite length_map.
  - by destruct Hlen as [-> | ->].
Qed.

Lemma preamble_geojson_parts (parts : list part) :
  parts ≠ [] → Forall valid_part parts →
  preamble_ok GEOINTERFACE (map geojson_part parts).
Proof.
  intros Hne Hv. destruct parts as [|p parts]; [done|].
  inversion Hv as [|? ? Hp _]; subst.
  destruct (valid_part_first_coord _ Hp) as (c & r & Hc & Hlen).
  exists (length c). split.
  - cbn [map]. unfold first_ndim_py, geojson_part. rewrite Hc. simpl.
    by rewrite length_map.
  - by destruct Hlen as [-> | ->].
Qed.

Lemma geo_interface_views (obj : MultiPolygon) (e : engine) (polys : list part) :
  geoms obj e = map view_of_part polys → geo_interface obj e = export_of polys.
Proof.
  intros H. unfold geo_interface, export_of. rewrite H.
  rewrite (foldl_snoc (fun geom =>
             PySeq (foldl (fun coords hole => coords ++ [coords_tuple hole])
                          ([] ++ [coords_tuple (exterior geom)]) (interiors geom)))).
  simpl. rewrite map_map. do 5 f_equal.
  apply map_ext. intros p. simpl. by rewrite foldl_snoc.
Qed.

(** Parts that pass the assertions and decode give an object whose parts,
    read back from the engine, are the decoded polygons in input order. *)
Lemma construction_views (mode : input_mode) (items : list pyval)
    (polys : list part) (e : engine) :
  preamble_ok mode items →
  Forall2 (decodes (resolve_shape mode)) items polys →
  ∃ obj e',
    MultiPolygon_init geos_polygon_from_py GEOSGeom_createCollection
      (PySeq items) (context_type_of mode) e = (Ok obj, e')
    ∧ geoms obj e' = map view_of_part polys.
Proof.
  intros Hpre Hdec.
  destruct (assembler_on_seq mode items e Hpre) as [N HA].
  rewrite (build_parts_ok _ _ _ _ Hdec) in HA.
  pose proof (Forall2_length _ _ _ Hdec) as Hlen.
  rewrite Hlen in HA. rewrite take_ge in HA by (rewrite length_seq; lia).
  unfold alloc in HA. rewrite alloc_polys_next in HA.
  assert (py_truthy (PySeq items) = true) as Ht.
  { destruct items; [|done]. destruct mode; simpl in Hpre.
    - by destruct Hpre as (? & ? & ? & _).
    - by destruct Hpre as (? & ? & _). }
  eexists _, _. split.
  - unfold MultiPolygon_init. rewrite Ht.
    destruct mode; simpl in HA |- *; unfold_m; rewrite HA; reflexivity.
  - unfold geoms. simpl. rewrite lookup_insert_eq.
    apply omap_seq. intros i p Hi. unfold view_of. simpl.
    rewrite lookup_insert_ne by (apply lookup_lt_Some in Hi; lia).
    by rewrite (alloc_polys_lookup _ _ _ _ Hi).
Qed.

(** C1: for a non-empty sequence of valid polygon parts, given either as
    [(shell, holes)] tuples or as geo-interface coordinates, construction
    succeeds, the built collection has as many parts as the input, and
    the interchange export has type ["MultiPolygon"] and lists, for each
    part in input order, the exterior ring and then the holes, with the
    coordinates that were supplied. *)
Theorem construction_round_trip (parts : list part) (e : engine) :
  parts ≠ [] → Forall valid_part parts →
  (∃ obj e',
      MultiPolygon_init geos_polygon_from_py GEOSGeom_createCollection
        (PySeq (map tuple_part parts)) "polygons" e = (Ok obj, e')
      ∧ length (geoms obj e') = length parts
      ∧ geo_interface obj e' = export_of parts)
  ∧ (∃ obj e',
      MultiPolygon_init geos_polygon_from_py GEOSGeom_createCollection
        (PySeq (map geojson_part parts)) "geojson" e = (Ok obj, e')
      ∧ length (geoms obj e') = length parts
      ∧ geo_interface obj e' = export_of parts).
Proof.
  intros Hne Hv. split.
  - destruct (construction_views EXPLICIT (map tuple_part parts) parts e)
      as (obj & e' & Hinit & Hgeoms).
    + by apply preamble_tuple_parts.
    + apply Forall2_fmap_l, Forall_Forall2_diag.
      eapply Forall_impl; [exact Hv|]. apply decodes_tuple_part.
    + exists obj, e'. split_and!; [done | |by apply geo_interface_views].
      by rewrite Hgeoms, length_map.
  - destruct (construction_views GEOINTERFACE (map geojson_part parts) parts e)
      as (obj & e' & Hinit & Hgeoms).
    + by apply preamble_geojson_parts.
    + apply Forall2_fmap_l, Forall_Forall2_diag.
      eapply Forall_impl; [exact Hv|]. apply decodes_geojson_part.
    + exists obj, e'. split_and!; [done | |by apply geo_interface_views].
      by rewrite Hgeoms, length_map.
Qed.

(** ** Shape resolution *)

(** C5 (counterexample): for an object with an [exterior] and without
    [interiors] the stated order gives empty holes, while the loop body
    goes on to [p[1]] and raises; and in geo-interface mode the loop
    body indexes a polygon object without looking at its attributes. *)
Lemma resolution_differs_from_stated_order :
  spec_resolve_shape EXPLICIT shell_only_object
    = Ok (coords_tuple unit_square, PySeq [])
  ∧ resolve_shape EXPLICIT shell_only_object = Raise TypeError
  ∧ spec_resolve_shape GEOINTERFACE polygon_object
    = Ok (coords_tuple unit_square, PySeq [])
  ∧ resolve_shape GEOINTERFACE polygon_object = Raise TypeError.
Proof. by split_and!. Qed.

(** C5 (amended): in polygons mode the shell is [p.exterior] when that
    attribute is there and not [None], else [p[0]]; independently, the
    holes are [p.interiors] when that attribute is there and not [None],
    else [p[1]], never an empty default.  In geo-interface mode no
    attribute is consulted: the shell is [p[0]] and the holes are
    [p[1:]].  On inputs with both attributes or with neither (polygons
    mode), and on inputs without [exterior] (geo-interface mode), this is
    the stated order. *)
Theorem shape_resolution (p : pyval) :
  (∀ s h, py_getattr p "exterior" = Ok s → s ≠ PyNone →
          py_getattr p "interiors" = Ok h → h ≠ PyNone →
          resolve_shape EXPLICIT p = Ok (s, h))
  ∧ (∀ s, py_getattr p "exterior" = Ok s → s ≠ PyNone →
          py_getattr_default p "interiors" PyNone = PyNone →
          resolve_shape EXPLICIT p = (holes ← py_getitem p 1; mret (s, holes)))
  ∧ (∀ h, py_getattr_default p "exterior" PyNone = PyNone →
          py_getattr p "interiors" = Ok h → h ≠ PyNone →
          resolve_shape EXPLICIT p = (shell ← py_getitem p 0; mret (shell, h)))
  ∧ (py_getattr_default p "exterior" PyNone = PyNone →
     py_getattr_default p "interiors" PyNone = PyNone →
     resolve_shape EXPLICIT p
     = (shell ← py_getitem p 0; holes ← py_getitem p 1; mret (shell, holes)))
  ∧ resolve_shape GEOINTERFACE p
    = (shell ← py_getitem p 0; holes ← py_slice_from1 p; mret (shell, holes))
  ∧ ((∃ s h, py_getattr p "exterior" = Ok s ∧ s ≠ PyNone
             ∧ py_getattr p "interiors" = Ok h ∧ h ≠ PyNone)
     ∨ (py_getattr p "exterior" = Raise AttributeError
        ∧ py_getattr_default p "interiors" PyNone = PyNone) →
     resolve_shape EXPLICIT p = spec_resolve_shape EXPLICIT p)
  ∧ (py_getattr p "exterior" = Raise AttributeError →
     resolve_shape GEOINTERFACE p = spec_resolve_shape GEOINTERFACE p).
Proof.
  unfold resolve_shape, part_shape_polygons, spec_resolve_shape, py_getattr_default.
  split_and!.
  - intros s h Hs Hsn Hh Hhn. rewrite Hs, Hh. by destruct s, h.
  - intros s Hs Hsn Hh. rewrite Hs. destruct s; try done.
    all: by destruct (py_getattr p "interiors") as [[]|]; try done.
  - intros h He Hh Hhn. rewrite Hh.
    destruct (py_getattr p "exterior") as [[]|]; try done.
    all: by destruct h.
  - intros He Hh.
    destruct (py_getattr p "exterior") as [[]|]; try done.
    all: by destruct (py_getattr p "interiors") as [[]|]; try done.
  - done.
  - intros [(s & h & Hs & Hsn & Hh & Hhn) | [He Hh]].
    + rewrite Hs, Hh. by destruct s, h.
    + rewrite He.
      by destruct (py_getattr p "interiors") as [[]|]; try done.
  - intros He. by rewrite He.
Qed.

(** ** The adapter *)



Lemma getattr_only_attribute_error v name x :
  py_getattr v name = Raise x → x = AttributeError.
Proof.
  destruct v as [| | s | l | d | attrs items]; simpl; try congruence.
  destruct (assoc name attrs); congruence.
Qed.



(** A shape descriptor whose second axis is 4 fails the assertion; the
    list branch, which would answer 2 here, is not tried. *)
Example ndim_probe_assertion_propagates :
  let shell :=
    PyObj [("__array_interface__", PyDict [("shape", PySeq [PyInt 4; PyInt 4])])]
          (Some [PySeq [PyNum 0; PyNum 0]]) in
  let self := asMultiPolygon (PySeq [PySeq [shell; PySeq []]]) in
  MultiPolygonAdapter_ndim self = Raise AssertionError
  ∧ ndim_from_list (context self) = Ok (PyInt 2).
Proof. by split. Qed.


Lemma adapter_run_resolved (h : handle) (n : pyval) (ops : list adapter_op) :
  ∀ (self : MultiPolygonAdapter) (e : engine),
    resolved self = Some (h, n) →
    adapter_run ops self e
    = (resolved_trace h self ops,
       {| context := final_context (context self) ops; factory := factory self;
          resolved := Some (h, n); resolutions := resolutions self |},
       e).
Proof.
  induction ops as [|op ops IH]; intros self e Hres.
  - simpl. destruct self; simpl in *. by subst.
  - destruct op as [| |c]; cbn [adapter_run adapter_step resolved_trace final_context].
    + unfold adapter_geom. rewrite Hres. unfold_m. by rewrite (IH self e Hres).
    + by rewrite (IH self e Hres).
    + by rewrite (IH (set_context self c) e Hres).
Qed.

(** C7 (counterexample): on a fresh adapter over a 2D context the first
    read is a dimensionality read: it answers 2, performs no resolution
    and memoises nothing.  Then a geometry read resolves the adapter and
    memoises the pair (handle 2, dimensionality 2); after the context is
    replaced by a 3D one the dimensionality read answers 3, not the
    memoised 2, while the geometry read still answers from the memo. *)
Lemma adapter_ndim_follows_context :
  let a0 := asMultiPolygon (PySeq [tuple_part unit_square_part]) in
  let ops := [ReadGeom; Mutate (PySeq [tuple_part (cube_face, [])]); ReadNdim; ReadGeom] in
  adapter_run [ReadNdim] a0 engine_init
  = ([SawNdim (Ok (PyInt 2))], a0, engine_init)
  ∧ resolutions a0 = 0 ∧ resolved a0 = None
  ∧ let '(obs, a, e) := adapter_run ops a0 engine_init in
    obs = [SawGeom (Ok 2); Mutated; SawNdim (Ok (PyInt 3)); SawGeom (Ok 2)]
    ∧ resolved a = Some (2, PyInt 2)
    ∧ resolutions a = 1.
Proof. vm_compute. by split_and!. Qed.

(** C7 (amended): on an unresolved adapter whose factory succeeds on the
    context, the first geometry read performs exactly one resolution and
    memoises the resulting pair; whatever reads and mutations of the
    context follow, the memo and the resolution count stay as they are,
    the engine is not touched again and every geometry read answers the
    memoised handle.  A dimensionality read is not such a read: it never
    resolves and is not answered from the memo, it probes the context as
    it is at that moment. *)
Theorem adapter_resolves_once (a0 : MultiPolygonAdapter) (f : factory_fn)
    (h : handle) (n : pyval) (e0 e1 : engine) (ops : list adapter_op) :
  resolved a0 = None → factory a0 = Some f →
  call_factory f (context a0) e0 = (Ok (h, n), e1) →
  ∃ a1 a,
    adapter_run [ReadGeom] a0 e0 = ([SawGeom (Ok h)], a1, e1)
    ∧ resolved a1 = Some (h, n) ∧ resolutions a1 = S (resolutions a0)
    ∧ context a1 = context a0
    ∧ adapter_run (ReadGeom :: ops) a0 e0
      = (SawGeom (Ok h) :: resolved_trace h a1 ops, a, e1)
    ∧ resolved a = Some (h, n) ∧ resolutions a = S (resolutions a0)
    ∧ context a = final_context (context a0) ops
    ∧ adapter_run [ReadNdim] a0 e0
      = ([SawNdim (MultiPolygonAdapter_ndim a0)], a0, e0)
    ∧ (∀ c, ∃ a',
         adapter_run [ReadGeom; Mutate c; ReadNdim] a0 e0
         = ([SawGeom (Ok h); Mutated;
             SawNdim (try_except (ndim_from_array c) AttributeError
                                 (ndim_from_list c))],
            a', e1)
         ∧ resolved a' = Some (h, n)).
Proof.
  intros Hres Hf Hcall.
  set (a1 := {| context := context a0; factory := Some f;
                resolved := Some (h, n); resolutions := S (resolutions a0) |}).
  assert (adapter_step ReadGeom a0 e0 = (SawGeom (Ok h), a1, e1)) as Hstep.
  { unfold adapter_step, adapter_geom. rewrite Hres, Hf. unfold_m.
    rewrite Hcall. reflexivity. }
  exists a1, {| context := final_context (context a0) ops; factory := Some f;
                resolved := Some (h, n); resolutions := S (resolutions a0) |}.
  split_and!; try reflexivity.
  - cbn [adapter_run]. by rewrite Hstep.
  - cbn [adapter_run]. rewrite Hstep.
    by rewrite (adapter_run_resolved h n ops _ e1).
  - intros c. eexists. cbn [adapter_run]. rewrite Hstep. by split.
Qed.

(** ** WKT formatting *)












(** The expectations of [test_linestring.py]. *)
Example test_linestring_wkt_2d :
  WKT.dumps (WKT.ints [[1; 2]; [3; 4]; [5; 6]]%Z)
  = "LINESTRING (1.0000000000000000 2.0000000000000000, "
    +:+ "3.0000000000000000 4.0000000000000000, "
    +:+ "5.0000000000000000 6.0000000000000000)".
Proof. vm_compute. reflexivity. Qed.

Example test_linearring_wkt_2d :
  WKT.dumps (WKT.ints [[0; 0]; [2; 3]; [3; 2]; [0; 0]]%Z)
  = "LINEARRING (0.0000000000000000 0.0000000000000000, "
    +:+ "2.0000000000000000 3.0000000000000000, "
    +:+ "3.0000000000000000 2.0000000000000000, "
    +:+ "0.0000000000000000 0.0000000000000000)".
Proof. vm_compute. reflexivity. Qed.

Example test_linestring_wkt_3d :
  WKT.dumps (WKT.ints [[1; 2; 10]; [3; 4; 11]; [5; 6; 12]]%Z)
  = "LINESTRING ("
    +:+ "1.0000000000000000 2.0000000000000000 10.0000000000000000, "
    +:+ "3.0000000000000000 4.0000000000000000 11.0000000000000000, "
    +:+ "5.0000000000000000 6.0000000000000000 12.0000000000000000)".
Proof. vm_compute. reflexivity. Qed.

Example test_linearring_wkt_3d :
  WKT.dumps (WKT.ints [[0; 0; 10]; [2; 3; 11]; [3; 2; 12]; [0; 0; 10]]%Z)
  = "LINEARRING ("
    +:+ "0.0000000000000000 0.0000000000000000 10.0000000000000000, "
    +:+ "2.0000000000000000 3.0000000000000000 11.0000000000000000, "
    +:+ "3.0000000000000000 2.0000000000000000 12.0000000000000000, "
    +:+ "0.0000000000000000 0.0000000000000000 10.0000000000000000)".
Proof. vm_compute. reflexivity. Qed.


(** * The statements at concrete inputs *)

Lemma valid_docstring_part : valid_part docstring_part.
Proof.
  split; [split; [done|]|]; repeat constructor; try done; auto.
Defined.

Lemma construction_round_trip_witness :
  [docstring_part] ≠ [] ∧ Forall valid_part [docstring_part]
  ∧ (∃ obj e',
        MultiPolygon_init geos_polygon_from_py GEOSGeom_createCollection
          (PySeq (map tuple_part [docstring_part])) "polygons" engine_init
        = (Ok obj, e')
        ∧ length (geoms obj e') = 1
        ∧ geo_interface obj e' = export_of [docstring_part])
  ∧ (∃ obj e',
        MultiPolygon_init geos_polygon_from_py GEOSGeom_createCollection
          (PySeq (map geojson_part [docstring_part])) "geojson" engine_init
        = (Ok obj, e')
        ∧ length (geoms obj e') = 1
        ∧ geo_interface obj e' = export_of [docstring_part]).
Proof.
  assert ([docstring_part] ≠ []) as Hne by discriminate.
  assert (Forall valid_part [docstring_part]) as Hv.
  { constructor; [apply valid_docstring_part | constructor]. }
  split; [exact Hne|]. split; [exact Hv|].
  exact (construction_round_trip [docstring_part] engine_init Hne Hv).
Defined.


Lemma empty_parts_rejected_witness :
  py_len (PySeq []) = Ok 0
  ∧ geos_multipolygon_from_py geos_polygon_from_py GEOSGeom_createCollection
      (PySeq []) engine_init
    = (Raise AssertionError, engine_init).
Proof.
  split; [reflexivity|].
  exact (proj1 (empty_parts_rejected geos_polygon_from_py GEOSGeom_createCollection
                  (PySeq []) engine_init) eq_refl).
Defined.

Lemma unknown_context_type_ignored_witness :
  py_truthy (PySeq [tuple_part unit_square_part]) = true
  ∧ "wkb" ≠ "polygons" ∧ "wkb" ≠ "geojson"
  ∧ MultiPolygon_init geos_polygon_from_py GEOSGeom_createCollection
      (PySeq [tuple_part unit_square_part]) "wkb" engine_init
    = (Ok base_init, engine_init).
Proof.
  assert ("wkb" ≠ "polygons") as Hp by discriminate.
  assert ("wkb" ≠ "geojson") as Hg by discriminate.
  split; [reflexivity|]. split; [exact Hp|]. split; [exact Hg|].
  exact (proj1 (unknown_context_type_ignored geos_polygon_from_py
                  GEOSGeom_createCollection (PySeq [tuple_part unit_square_part])
                  "wkb" engine_init eq_refl Hp Hg)).
Defined.

Lemma geoms_attribute_preferred_witness :
  py_getattr multi_object "geoms" = Ok (PySeq [tuple_part unit_square_part])
  ∧ py_truthy (PySeq [tuple_part unit_square_part]) = true
  ∧ parts_of multi_object = PySeq [tuple_part unit_square_part]
  ∧ geos_multipolygon_from_polygons geos_polygon_from_py GEOSGeom_createCollection
      multi_object engine_init
    = assemble_polygons geos_polygon_from_py GEOSGeom_createCollection
        (PySeq [tuple_part unit_square_part]) engine_init.
Proof.
  split; [reflexivity|]. split; [reflexivity|].
  exact (proj1 (geoms_attribute_preferred geos_polygon_from_py
                  GEOSGeom_createCollection multi_object engine_init)
           _ eq_refl eq_refl).
Defined.

Lemma failed_assembly_keeps_handles_witness :
  preamble_ok EXPLICIT ([tuple_part unit_square_part] ++ empty_shell_part :: [])
  ∧ Forall2 (decodes (resolve_shape EXPLICIT))
      [tuple_part unit_square_part] [unit_square_part]
  ∧ fails_with (resolve_shape EXPLICIT) empty_shell_part ShapeError
  ∧ ∃ e',
      assembler EXPLICIT
        (PySeq ([tuple_part unit_square_part] ++ empty_shell_part :: [])) engine_init
      = (Raise ShapeError, e')
      ∧ next e' = next engine_init + 1
      ∧ (∀ i p, [unit_square_part] !! i = Some p →
           live e' !! (next engine_init + i) = Some (PolygonGeom p.1 p.2))
      ∧ (∀ h k parts, live e' !! h = Some (CollectionGeom k parts) →
           live engine_init !! h = Some (CollectionGeom k parts)).
Proof.
  assert (preamble_ok EXPLICIT
            ([tuple_part unit_square_part] ++ empty_shell_part :: [])) as Hpre.
  { exists (tuple_part unit_square_part), (PyInt 2). by split_and!. }
  assert (Forall2 (decodes (resolve_shape EXPLICIT))
            [tuple_part unit_square_part] [unit_square_part]) as Hgood.
  { constructor; [|constructor].
    exists (coords_tuple unit_square), (PySeq []). by split_and!. }
  assert (fails_with (resolve_shape EXPLICIT) empty_shell_part ShapeError) as Hbad.
  { right. exists (PySeq []), (PySeq []). by split. }
  split; [exact Hpre|]. split; [exact Hgood|]. split; [exact Hbad|].
  exact (failed_assembly_keeps_handles EXPLICIT _ _ _ [] ShapeError engine_init
           Hpre Hgood Hbad).
Defined.

Lemma shape_resolution_witness :
  py_getattr polygon_object "exterior" = Ok (coords_tuple unit_square)
  ∧ coords_tuple unit_square ≠ PyNone
  ∧ py_getattr polygon_object "interiors" = Ok (PySeq [])
  ∧ PySeq [] ≠ PyNone
  ∧ resolve_shape EXPLICIT polygon_object = Ok (coords_tuple unit_square, PySeq []).
Proof.
  assert (coords_tuple unit_square ≠ PyNone) as Hs by discriminate.
  assert (PySeq [] ≠ PyNone) as Hh by discriminate.
  split; [reflexivity|]. split; [exact Hs|]. split; [reflexivity|].
  split; [exact Hh|].
  exact (proj1 (shape_resolution polygon_object) _ _ eq_refl Hs eq_refl Hh).
Defined.


Lemma adapter_resolves_once_witness :
  let a0 := asMultiPolygon (PySeq [tuple_part unit_square_part]) in
  let e1 := (call_factory factory_from_polygons (context a0) engine_init).2 in
  resolved a0 = None ∧ factory a0 = Some factory_from_polygons
  ∧ call_factory factory_from_polygons (context a0) engine_init
    = (Ok (2, PyInt 2), e1)
  ∧ ∃ a1,
      adapter_run [ReadGeom] a0 engine_init = ([SawGeom (Ok 2)], a1, e1)
      ∧ resolved a1 = Some (2, PyInt 2) ∧ resolutions a1 = 1.
Proof.
  intros a0 e1.
  assert (call_factory factory_from_polygons (context a0) engine_init
          = (Ok (2, PyInt 2), e1)) as Hcall.
  { vm_compute. reflexivity. }
  split; [reflexivity|]. split; [reflexivity|]. split; [exact Hcall|].
  destruct (adapter_resolves_once a0 factory_from_polygons 2 (PyInt 2)
              engine_init e1 [] eq_refl eq_refl Hcall)
    as (a1 & a & Hrun & Hres & Hcount & _).
  exists a1. split; [exact Hrun|]. split; [exact Hres|]. exact Hcount.
Defined.


(** * Further properties of the module *)

(** ** The handle array and the order of the calls *)

Section AssemblyRuns.

Context {E : Type}.
Variable polygon_from_py : pyval → pyval → M E (handle * pyval).
Variable createCollection : nat → list handle → nat → M E handle.

Abbreviation from_py := (geos_multipolygon_from_py polygon_from_py createCollection).
Abbreviation from_polygons :=
  (geos_multipolygon_from_polygons polygon_from_py createCollection).
Abbreviation assemble := (assemble_polygons polygon_from_py createCollection).
Abbreviation init := (MultiPolygon_init polygon_from_py createCollection).

(** The loop keeps the array at its length and fills slot [l] at step
    [l]: after the steps [i .. i+n-1] the first [i+n] slots hold what the
    builder returned. *)
Lemma for_each_fills (P : handle → Prop) shape_of (ob : pyval) (L : nat) :
  (∀ shell holes e g n e',
     polygon_from_py shell holes e = (Ok (g, n), e') → P g) →
  ∀ (n i : nat) (subs : list handle) (e : E) subs' e1,
    length subs = L → i + n = L → Forall P (take i subs) →
    for_each (seq i n)
      (fun l subs =>
         p ← lift (py_getitem ob l);
         '(shell, holes) ← lift (shape_of p);
         '(geom, ndims) ← polygon_from_py shell holes;
         mret (<[l := geom]> subs))
      subs e = (Ok subs', e1) →
    length subs' = L ∧ Forall P subs'.
Proof.
  intros HP n. induction n as [|n IH]; intros i subs e subs' e1 Hlen Hin Hdone.
  - simpl. unfold_m. intros [= <- <-]. split; [done|].
    by rewrite take_ge in Hdone by lia.
  - cbn [seq for_each]. unfold_m.
    destruct (py_getitem ob i) as [p|err]; [|done].
    destruct (shape_of p) as [[shell holes]|err]; [|done].
    destruct (polygon_from_py shell holes e) as [[[geom ndims]|err] e0] eqn:Hb;
      [|done].
    apply (IH (S i)).
    + by rewrite length_insert.
    + lia.
    + rewrite (take_S_r _ _ geom) by (apply list_lookup_insert_eq; lia).
      rewrite take_insert_ge by lia.
      apply Forall_app. split; [done|]. constructor; [|done]. by eapply HP.
Qed.

Lemma collect_parts_fills (P : handle → Prop) shape_of ob L e subs e1 :
  (∀ shell holes e g n e',
     polygon_from_py shell holes e = (Ok (g, n), e') → P g) →
  collect_parts polygon_from_py shape_of ob L e = (Ok subs, e1) →
  length subs = L ∧ Forall P subs.
Proof.
  intros HP. unfold collect_parts, for_range.
  apply (for_each_fills P shape_of ob L HP L 0).
  - apply length_replicate.
  - done.
  - constructor.
Qed.

(** X1: when an assembler succeeds, the array it hands to the engine has
    exactly [L] slots and every slot holds a handle returned by the
    builder: with a builder that never returns the null pointer, no null
    handle reaches [GEOSGeom_createCollection], which is called with the
    kind 6 and the count [L]. *)
Theorem handle_array_filled (ob : pyval) (e e' : E) (c : handle) (N : pyval) :
  (∀ shell holes e g n e',
     polygon_from_py shell holes e = (Ok (g, n), e') → g ≠ null) →
  (from_py ob e = (Ok (c, N), e') →
   ∃ L subs e1, py_len ob = Ok L ∧ length subs = L
                ∧ Forall (fun h => h ≠ null) subs
                ∧ createCollection 6 subs L e1 = (Ok c, e'))
  ∧ (from_polygons ob e = (Ok (c, N), e') →
     ∃ L subs e1, py_len (parts_of ob) = Ok L ∧ length subs = L
                  ∧ Forall (fun h => h ≠ null) subs
                  ∧ createCollection 6 subs L e1 = (Ok c, e')).
Proof.
  intros Hb. split.
  - unfold geos_multipolygon_from_py. unfold_m.
    destruct (py_len ob) as [L|err]; [|done].
    destruct (py_assert (Nat.leb 1 L)) as [[]|err]; [|done].
    destruct (first_ndim_py ob) as [n|err]; [|done].
    destruct (py_assert (_ || _)) as [[]|err]; [|done].
    destruct (collect_parts _ _ _ _ e) as [[subs|err] e1] eqn:Hc; [|done].
    destruct (createCollection 6 subs L e1) as [[c0|err] e2] eqn:Hcc; [|done].
    intros [= <- <- <-].
    destruct (collect_parts_fills _ _ _ _ _ _ _ Hb Hc) as [Hlen Hall].
    by exists L, subs, e1.
  - unfold geos_multipolygon_from_polygons, assemble_polygons. unfold_m.
    destruct (py_len (parts_of ob)) as [L|err]; [|done].
    destruct (py_assert (Nat.leb 1 L)) as [[]|err]; [|done].
    destruct (py_getitem (parts_of ob) 0) as [exemplar|err]; [|done].
    destruct (exemplar_ndim exemplar) as [n|err]; [|done].
    destruct (py_assert (_ || _)) as [[]|err]; [|done].
    destruct (collect_parts _ _ _ _ e) as [[subs|err] e1] eqn:Hc; [|done].
    destruct (createCollection 6 subs L e1) as [[c0|err] e2] eqn:Hcc; [|done].
    intros [= <- <- <-].
    destruct (collect_parts_fills _ _ _ _ _ _ _ Hb Hc) as [Hlen Hall].
    by exists L, subs, e1.
Qed.

(** The whole behaviour of the geo-interface assembler on a sequence. *)
Lemma from_py_on_seq (items : list pyval) (e : E) :
  from_py (PySeq items) e
  = match items with
    | [] => (Raise AssertionError, e)
    | _ :: _ =>
        match first_ndim_py (PySeq items) with
        | Ok n =>
            if Nat.eqb n 2 || Nat.eqb n 3 then
              match build_parts polygon_from_py part_shape_py items e with
              | (Ok subs, e1) =>
                  match createCollection 6 subs (length items) e1 with
                  | (Ok c, e2) => (Ok (c, PyInt n), e2)
                  | (Raise x, e2) => (Raise x, e2)
                  end
              | (Raise x, e1) => (Raise x, e1)
              end
            else (Raise AssertionError, e)
        | Raise x => (Raise x, e)
        end
    end.
Proof.
  destruct items as [|p items]; [done|].
  remember (build_parts _ _ _ e) as B eqn:HB.
  unfold geos_multipolygon_from_py. unfold_m. cbn [py_len length Nat.leb py_assert].
  destruct (first_ndim_py (PySeq (p :: items))) as [n|err]; [|done].
  destruct (Nat.eqb n 2 || Nat.eqb n 3); [|done]. cbn [py_assert].
  rewrite (collect_parts_build_parts _ _ (PySeq (p :: items)) (p :: items))
    by apply getitem_seq.
  rewrite <- HB. by destruct B as [[subs|err] e1].
Qed.

(** The whole behaviour of the polygons assembler on a sequence. *)
Lemma assemble_on_seq (items : list pyval) (e : E) :
  from_polygons (PySeq items) e
  = match items with
    | [] => (Raise AssertionError, e)
    | exemplar :: _ =>
        match exemplar_ndim exemplar with
        | Ok N =>
            if py_eq_int N 2 || py_eq_int N 3 then
              match build_parts polygon_from_py part_shape_polygons items e with
              | (Ok subs, e1) =>
                  match createCollection 6 subs (length items) e1 with
                  | (Ok c, e2) => (Ok (c, N), e2)
                  | (Raise x, e2) => (Raise x, e2)
                  end
              | (Raise x, e1) => (Raise x, e1)
              end
            else (Raise AssertionError, e)
        | Raise x => (Raise x, e)
        end
    end.
Proof.
  destruct items as [|p items]; [done|].
  remember (build_parts _ _ _ e) as B eqn:HB.
  unfold geos_multipolygon_from_polygons. rewrite parts_of_seq.
  unfold assemble_polygons. unfold_m.
  cbn [py_len length Nat.leb py_assert py_getitem index_list lookup list_lookup].
  destruct (exemplar_ndim p) as [N|err]; [|done].
  destruct (py_eq_int N 2 || py_eq_int N 3); [|done]. cbn [py_assert].
  rewrite (collect_parts_build_parts _ _ (PySeq (p :: items)) (p :: items))
    by apply getitem_seq.
  rewrite <- HB. by destruct B as [[subs|err] e1].
Qed.

Lemma build_parts_stops shape_of good bad rest hs x (e e1 e2 : E) :
  build_parts polygon_from_py shape_of good e = (Ok hs, e1) →
  build_part polygon_from_py shape_of bad e1 = (Raise x, e2) →
  build_parts polygon_from_py shape_of (good ++ bad :: rest) e = (Raise x, e2).
Proof.
  revert hs e. induction good as [|p good IH]; intros hs e.
  - cbn [app build_parts]. unfold_m. intros [= <- <-] Hbad. by rewrite Hbad.
  - cbn [app build_parts]. unfold_m.
    destruct (build_part _ _ p e) as [[h|err] e0]; [|done].
    destruct (build_parts _ _ good e0) as [[hs0|err] e3] eqn:Hgood; [|done].
    intros [= <- <-] Hbad. by rewrite (IH _ _ Hgood Hbad).
Qed.

Lemma assemble_stops good bad rest hs x (e e1 e2 : E) :
  preamble_ok EXPLICIT (good ++ bad :: rest) →
  build_parts polygon_from_py part_shape_polygons good e = (Ok hs, e1) →
  build_part polygon_from_py part_shape_polygons bad e1 = (Raise x, e2) →
  from_polygons (PySeq (good ++ bad :: rest)) e = (Raise x, e2).
Proof.
  intros (ex & N & Hex & HN & Hck) Hgood Hbad. rewrite assemble_on_seq.
  rewrite (build_parts_stops _ _ _ _ _ _ _ _ _ Hgood Hbad).
  destruct (good ++ bad :: rest) as [|p items]; [done|].
  simpl in Hex. injection Hex as ->. by rewrite HN, Hck.
Qed.

(** X2: the parts are built strictly in input order and the first part
    that fails ends the assembly: the error is that part's, the engine is
    left as the builder calls made so far left it, the parts after it are
    never looked at and the collection primitive is not called. *)
Theorem failing_part_stops_assembly (good : list pyval) (bad : pyval)
    (rest : list pyval) (hs : list handle) (x : exn) (e e1 e2 : E) :
  (preamble_ok GEOINTERFACE (good ++ bad :: rest) →
   build_parts polygon_from_py part_shape_py good e = (Ok hs, e1) →
   build_part polygon_from_py part_shape_py bad e1 = (Raise x, e2) →
   from_py (PySeq (good ++ bad :: rest)) e = (Raise x, e2))
  ∧ (preamble_ok EXPLICIT (good ++ bad :: rest) →
     build_parts polygon_from_py part_shape_polygons good e = (Ok hs, e1) →
     build_part polygon_from_py part_shape_polygons bad e1 = (Raise x, e2) →
     from_polygons (PySeq (good ++ bad :: rest)) e = (Raise x, e2)).
Proof.
  split.
  - intros (n & Hn & Hck) Hgood Hbad. rewrite from_py_on_seq, Hn, Hck.
    rewrite (build_parts_stops _ _ _ _ _ _ _ _ _ Hgood Hbad).
    by destruct good.
  - intros (ex & N & Hex & HN & Hck) Hgood Hbad. rewrite assemble_on_seq.
    rewrite (build_parts_stops _ _ _ _ _ _ _ _ _ Hgood Hbad).
    destruct (good ++ bad :: rest) as [|p items]; [done|].
    simpl in Hex. injection Hex as ->. by rewrite HN, Hck.
Qed.

(** X3: in polygons mode a part must carry its holes entry: a part given
    as the 1-tuple [(shell,)] raises [IndexError] at [obs[l][1]] before
    the builder is called for it, where geo-interface mode builds the
    same part with no holes. *)
Theorem part_without_holes_entry (good : list pyval) (shell : pyval)
    (rest : list pyval) (hs : list handle) (e e1 : E) :
  (preamble_ok EXPLICIT (good ++ PySeq [shell] :: rest) →
   build_parts polygon_from_py part_shape_polygons good e = (Ok hs, e1) →
   from_polygons (PySeq (good ++ PySeq [shell] :: rest)) e = (Raise IndexError, e1))
  ∧ build_part polygon_from_py part_shape_py (PySeq [shell]) e
    = ('(geom, ndims) ← polygon_from_py shell (PySeq []); mret geom) e.
Proof.
  split; [|done].
  intros Hpre Hgood.
  by apply (assemble_stops good (PySeq [shell]) rest hs IndexError e e1 e1).
Qed.

Lemma part_shape_polygons_seq (s h : pyval) (r : list pyval) :
  part_shape_polygons (PySeq (s :: h :: r)) = Ok (s, h).
Proof. reflexivity. Qed.

Lemma build_parts_same_first_two (items items' : list pyval) (e : E) :
  Forall2 same_first_two items items' →
  build_parts polygon_from_py part_shape_polygons items e
  = build_parts polygon_from_py part_shape_polygons items' e.
Proof.
  intros H. revert e. induction H as [|p p' items items' Hp _ IH]; intros e; [done|].
  destruct Hp as (s & h & r & r' & -> & ->).
  cbn [build_parts]. unfold_m. unfold build_part. unfold_m.
  rewrite !part_shape_polygons_seq.
  destruct (polygon_from_py s h e) as [[[g n]|err] e0]; [|done].
  by rewrite IH.
Qed.

(** X4: polygons mode reads only [p[0]] and [p[1]] of a part given as a
    sequence: whatever follows them (a third ring, further holes written
    geo-interface style) is silently ignored, so two inputs whose parts
    agree on their first two elements are assembled identically. *)
Theorem polygons_mode_ignores_extra_elements (items items' : list pyval) (e : E) :
  Forall2 same_first_two items items' →
  from_polygons (PySeq items) e = from_polygons (PySeq items') e.
Proof.
  intros H. rewrite !assemble_on_seq.
  rewrite (build_parts_same_first_two _ _ e H).
  rewrite (Forall2_length _ _ _ H).
  destruct H as [|p p' items items' Hp _]; [done|].
  by destruct Hp as (s & h & r & r' & -> & ->).
Qed.

Lemma truthy_len_positive (v : pyval) (L : nat) :
  py_truthy v = true → py_len v = Ok L → 1 ≤ L.
Proof.
  destruct v as [|q|s|l|d|attrs [l|]]; simpl; try done.
  - destruct s; [done|]. intros _ [= <-]. simpl. lia.
  - destruct l; [done|]. intros _ [= <-]. simpl. lia.
  - destruct d; [done|]. intros _ [= <-]. simpl. lia.
  - destruct l; [done|]. intros _ [= <-]. simpl. lia.
Qed.

Lemma parts_of_empty_falsy (ob : pyval) :
  py_len (parts_of ob) = Ok 0 → py_truthy ob = false.
Proof.
  unfold parts_of, py_or.
  destruct (py_truthy (py_getattr_default ob "geoms" PyNone)) eqn:Hg.
  - intros HL. pose proof (truthy_len_positive _ _ Hg HL). lia.
  - intros HL. destruct (py_truthy ob) eqn:Ht; [|done].
    pose proof (truthy_len_positive _ _ Ht HL). lia.
Qed.

(** X5: every input on which an assembler would fail its emptiness
    assertion is falsy, so the constructor never reaches that assertion:
    for every context type it returns the empty object and leaves the
    engine alone. *)
Theorem empty_input_makes_empty_object (polygons : pyval) (context_type : string)
    (e : E) :
  py_len polygons = Ok 0 ∨ py_len (parts_of polygons) = Ok 0 →
  init polygons context_type e = (Ok base_init, e).
Proof.
  intros HL.
  assert (py_truthy polygons = false) as Hf.
  { destruct HL as [HL|HL]; [|by apply parts_of_empty_falsy].
    destruct (py_truthy polygons) eqn:Ht; [|done].
    pose proof (truthy_len_positive _ _ Ht HL). lia. }
  unfold MultiPolygon_init. by rewrite Hf.
Qed.

(** X6: the constructor sets the handle and the dimensionality together
    or not at all: a returned object either is the empty one, with the
    engine untouched, or carries a handle and a dimensionality equal to 2
    or 3, which happens only for a truthy input and a recognised context
    type. *)
Theorem constructor_sets_handle_and_ndim (polygons : pyval) (context_type : string)
    (e e' : E) (obj : MultiPolygon) :
  init polygons context_type e = (Ok obj, e') →
  (obj = base_init ∧ e' = e
   ∧ (py_truthy polygons = false
      ∨ (context_type ≠ "polygons" ∧ context_type ≠ "geojson")))
  ∨ (∃ g N, obj = {| _geom := Some g; _ndim := Some N |}
            ∧ (py_eq_int N 2 = true ∨ py_eq_int N 3 = true)
            ∧ py_truthy polygons = true
            ∧ (context_type = "polygons" ∨ context_type = "geojson")).
Proof.
  unfold MultiPolygon_init.
  destruct (py_truthy polygons) eqn:Ht; simpl.
  2: { unfold_m. intros [= <- <-]. left. auto. }
  destruct (String.eqb_spec context_type "polygons") as [->|Hp].
  { unfold_m.
    destruct (from_polygons polygons e) as [[[g N]|err] e1] eqn:HA; [|done].
    intros [= <- <-]. right. exists g, N.
    destruct (assemble_inv _ _ _ _ _ _ _ HA) as (L & ex & _ & _ & _ & _ & HN).
    auto. }
  destruct (String.eqb_spec context_type "geojson") as [->|Hg].
  { unfold_m.
    destruct (from_py polygons e) as [[[g N]|err] e1] eqn:HA; [|done].
    intros [= <- <-]. right. exists g, N.
    destruct (from_py_inv _ _ _ _ _ _ _ HA) as (L & n & _ & _ & _ & -> & Hn).
    split_and!; auto. destruct Hn as [-> | ->]; auto. }
  unfold_m. intros [= <- <-]. left. auto.
Qed.

Lemma ndim_from_list_first_ndim (ctx : pyval) :
  ndim_from_list ctx = (n ← first_ndim_py ctx; mret (PyInt n)).
Proof.
  unfold ndim_from_list, first_ndim_py. unfold_m.
  destruct (py_getitem ctx 0) as [part|]; [|done].
  destruct (py_getitem part 0) as [shell|]; [|done].
  by destruct (py_getitem shell 0) as [c|].
Qed.

Lemma exemplar_ndim_of_list (ctx exemplar v : pyval) :
  py_getitem ctx 0 = Ok exemplar → ndim_from_list ctx = Ok v →
  exemplar_ndim exemplar = Ok v.
Proof.
  intros Hex. unfold ndim_from_list, exemplar_ndim, try_except. unfold_m.
  rewrite Hex.
  destruct (py_getitem exemplar 0) as [shell|]; [|done].
  destruct (py_getitem shell 0) as [c|]; [|done].
  by destruct (py_len c) as [n|].
Qed.

(** X7: over a context whose first shell carries no array descriptor,
    the adapter's dimensionality agrees with the construction: whenever
    the geo-interface factory succeeds, [_ndim] answers the
    dimensionality the factory returned; the same holds for the polygons
    factory on a context without [geoms] whenever the list branch of the
    probe answers at all. *)
Theorem probe_agrees_with_factory (ctx : pyval) (e e' : E) (h : handle) (N : pyval) :
  ndim_from_array ctx = Raise AttributeError →
  (from_py ctx e = (Ok (h, N), e') →
   MultiPolygonAdapter_ndim (MultiPolygonAdapter_init ctx "geojson") = Ok N)
  ∧ (∀ v, parts_of ctx = ctx → ndim_from_list ctx = Ok v →
       from_polygons ctx e = (Ok (h, N), e') →
       N = v ∧ MultiPolygonAdapter_ndim (asMultiPolygon ctx) = Ok N).
Proof.
  intros Ha. split.
  - intros HA.
    destruct (from_py_inv _ _ _ _ _ _ _ HA) as (L & n & _ & _ & Hn & -> & _).
    unfold MultiPolygonAdapter_ndim, try_except. cbn [MultiPolygonAdapter_init
      String.eqb Ascii.eqb Bool.eqb set_factory set_context context].
    rewrite Ha, decide_True by done.
    by rewrite ndim_from_list_first_ndim, Hn.
  - intros v Hparts Hl HA. unfold geos_multipolygon_from_polygons in HA.
    rewrite Hparts in HA.
    destruct (assemble_inv _ _ _ _ _ _ _ HA) as (L & ex & _ & _ & Hex & HN & _).
    rewrite (exemplar_ndim_of_list _ _ _ Hex Hl) in HN. injection HN as ->.
    split; [done|].
    unfold MultiPolygonAdapter_ndim, try_except. simpl.
    by rewrite Ha, decide_True.
Qed.

Lemma py_eq_int_PyInt (n m : nat) : py_eq_int (PyInt n) m = Nat.eqb n m.
Proof.
  unfold py_eq_int, PyInt. apply Bool.eq_iff_eq_true.
  rewrite Qeq_bool_iff, inject_Z_injective, Nat2Z.inj_iff, Nat.eqb_eq. done.
Qed.

(** X8: the list branch of the probe does not check its answer: over a
    context of nested sequences whose first coordinate has [n] entries,
    [_ndim] answers [n] whatever [n] is, while for [n] other than 2 and 3
    both factories refuse that context on their dimension assertion,
    before anything is built. *)
Theorem probe_answers_where_factories_refuse (c r more ps : list pyval) (e : E) :
  length c ≠ 2 → length c ≠ 3 →
  let ctx := PySeq (PySeq (PySeq (PySeq c :: r) :: more) :: ps) in
  MultiPolygonAdapter_ndim (asMultiPolygon ctx) = Ok (PyInt (length c))
  ∧ MultiPolygonAdapter_ndim (MultiPolygonAdapter_init ctx "geojson")
    = Ok (PyInt (length c))
  ∧ from_polygons ctx e = (Raise AssertionError, e)
  ∧ from_py ctx e = (Raise AssertionError, e).
Proof.
  intros H2 H3 ctx. apply Nat.eqb_neq in H2, H3. split_and!.
  - reflexivity.
  - reflexivity.
  - unfold ctx. rewrite assemble_on_seq.
    unfold exemplar_ndim, try_except. cbn [py_getitem index_list lookup list_lookup
      py_len mbind mret result_bind result_ret].
    by rewrite !py_eq_int_PyInt, H2, H3.
  - unfold ctx. rewrite from_py_on_seq.
    unfold first_ndim_py. cbn [py_getitem index_list lookup list_lookup
      py_len mbind mret result_bind result_ret].
    by rewrite H2, H3.
Qed.

(** X12: on a sequence of parts that passes the assertions, a successful
    assembly is the builder called once per part in input order, then
    one call of the collection primitive with the kind 6, the handles in
    that same order and the count [L]; the dimensionality returned is the
    one read from the first part. *)
Theorem assembly_builds_in_input_order (items : list pyval) (hs : list handle)
    (c : handle) (e e1 e2 : E) :
  (∀ n, first_ndim_py (PySeq items) = Ok n → Nat.eqb n 2 || Nat.eqb n 3 = true →
     build_parts polygon_from_py part_shape_py items e = (Ok hs, e1) →
     createCollection 6 hs (length items) e1 = (Ok c, e2) →
     items ≠ [] →
     from_py (PySeq items) e = (Ok (c, PyInt n), e2))
  ∧ (∀ exemplar N, items !! 0 = Some exemplar → exemplar_ndim exemplar = Ok N →
       py_eq_int N 2 || py_eq_int N 3 = true →
       build_parts polygon_from_py part_shape_polygons items e = (Ok hs, e1) →
       createCollection 6 hs (length items) e1 = (Ok c, e2) →
       from_polygons (PySeq items) e = (Ok (c, N), e2)).
Proof.
  split.
  - intros n Hn Hck Hb Hc Hne. rewrite from_py_on_seq, Hn, Hck, Hb, Hc.
    by destruct items.
  - intros ex N Hex HN Hck Hb Hc. rewrite assemble_on_seq, Hb, Hc.
    destruct items as [|p items]; [done|].
    simpl in Hex. injection Hex as ->. by rewrite HN, Hck.
Qed.

Lemma build_parts_corresponding (ps qs : list pyval) (e : E) :
  Forall2 corresponds ps qs →
  build_parts polygon_from_py part_shape_polygons ps e
  = build_parts polygon_from_py part_shape_py qs e.
Proof.
  intros H. revert e. induction H as [|p q ps qs Hpq _ IH]; intros e; [done|].
  destruct Hpq as (s & hs & -> & ->).
  cbn [build_parts]. unfold build_part. unfold_m.
  rewrite part_shape_polygons_seq.
  change (part_shape_py (PySeq (s :: hs))) with (Ok (s, PySeq hs)).
  cbv beta iota.
  destruct (polygon_from_py s (PySeq hs) e) as [[[g n]|err] e0]; [|done].
  by rewrite IH.
Qed.

(** X13: the two input shapes are interchangeable: parts written as
    [(shell, holes)] tuples are assembled in polygons mode exactly as the
    same parts written [(shell, hole, hole, ...)] are in geo-interface
    mode, handle, dimensionality, error and engine alike, as soon as the
    dimensionality of the first part can be read. *)
Theorem modes_agree_on_corresponding_input (ps qs : list pyval) (n : nat) (e : E) :
  Forall2 corresponds ps qs →
  first_ndim_py (PySeq qs) = Ok n →
  from_polygons (PySeq ps) e = from_py (PySeq qs) e.
Proof.
  intros H Hn. rewrite assemble_on_seq, from_py_on_seq, Hn.
  rewrite (build_parts_corresponding _ _ e H), (Forall2_length _ _ _ H).
  destruct H as [|p q ps qs Hpq _]; [done|].
  destruct Hpq as (s & hs & -> & ->).
  revert Hn. unfold first_ndim_py, exemplar_ndim, try_except.
  cbn [py_getitem index_list lookup list_lookup mbind result_bind].
  destruct (py_getitem s 0) as [c0|]; [|done]. cbn [mbind result_bind].
  destruct (py_len c0) as [m|]; [|done]. intros [= ->].
  cbn [mbind mret result_bind result_ret]. by rewrite !py_eq_int_PyInt.
Qed.

End AssemblyRuns.

(** ** The export of any object *)

(** X9: whatever the state of the object and of the engine, the export
    is the [MultiPolygon] mapping whose coordinates hold one entry per
    part, in part order, and the entry of a part is its exterior ring
    followed by its holes in their order; an object without parts
    exports an empty coordinate list. *)
Theorem geo_interface_lists_parts (self : MultiPolygon) (e : engine) :
  geo_interface self e
  = PyDict [("type", PyStr "MultiPolygon");
            ("coordinates",
             PySeq (map (fun g => PySeq (coords_tuple (exterior g)
                                         :: map coords_tuple (interiors g)))
                        (geoms self e)))]
  ∧ (geoms self e = [] →
     py_getkey (geo_interface self e) "coordinates" = Ok (PySeq [])).
Proof.
  assert (geo_interface self e
          = PyDict [("type", PyStr "MultiPolygon");
                    ("coordinates",
                     PySeq (map (fun g => PySeq (coords_tuple (exterior g)
                                                 :: map coords_tuple (interiors g)))
                                (geoms self e)))]) as H.
  { unfold geo_interface.
    rewrite (foldl_snoc (fun geom =>
               PySeq (foldl (fun coords hole => coords ++ [coords_tuple hole])
                            ([] ++ [coords_tuple (exterior geom)]) (interiors geom)))).
    simpl. do 5 f_equal. apply map_ext. intros g. simpl. by rewrite foldl_snoc. }
  split; [exact H|]. intros Hnil. rewrite H, Hnil. reflexivity.
Qed.

(** ** [svg] *)

Lemma mapM_cons_Ok {A B} (f : A → result B) (a : A) (l : list A) (k : list B) :
  mapM f (a :: l) = Ok k ↔ ∃ b k', f a = Ok b ∧ mapM f l = Ok k' ∧ k = b :: k'.
Proof.
  cbn [mapM]. unfold_m. split.
  - destruct (f a) as [b|]; [|done]. destruct (mapM f l) as [k'|]; [|done].
    intros [= <-]. by exists b, k'.
  - by intros (b & k' & -> & -> & ->).
Qed.

Lemma mapM_Ok_length {A B} (f : A → result B) (l : list A) (k : list B) :
  mapM f l = Ok k → length k = length l.
Proof.
  revert k. induction l as [|a l IH]; intros k.
  - by intros [= <-].
  - intros (b & k' & _ & Hk' & ->)%mapM_cons_Ok. simpl. by rewrite (IH _ Hk').
Qed.

Lemma mapM_raises {A B} (f : A → result B) (l : list A) (x y : exn) :
  (∀ a z, f a = Raise z → z = y) → mapM f l = Raise x → x = y.
Proof.
  intros Hf. induction l as [|a l IH]; [done|].
  cbn [mapM]. unfold_m. destruct (f a) as [b|z] eqn:Ha.
  - destruct (mapM f l) as [k|z]; [done|]. intros [= <-]. by apply IH.
  - intros [= <-]. by eapply Hf.
Qed.

Lemma mapM_eq {A B} (f g : A → result B) (l : list A) :
  (∀ a, f a = g a) → mapM f l = mapM g l.
Proof.
  intros Hfg. induction l as [|a l IH]; [done|].
  cbn [mapM]. by rewrite Hfg, IH.
Qed.

Lemma mapM_fmap {A B C} (f : B → result C) (g : A → B) (l : list A) :
  mapM f (map g l) = mapM (fun a => f (g a)) l.
Proof.
  induction l as [|a l IH]; [done|].
  cbn [map mapM]. by rewrite IH.
Qed.

Section SvgFacts.

Variable str_float : Q → string.

Lemma format_xy_planar (c : coord) :
  format_xy str_float (planar c) = format_xy str_float c.
Proof. by destruct c as [|x [|y c]]. Qed.

Lemma format_xy_raises (c : coord) (z : exn) :
  format_xy str_float c = Raise z → z = IndexError.
Proof. destruct c as [|x [|y c]]; simpl; congruence. Qed.

Lemma ring_path_raises (k : list string) (z : exn) :
  ring_path k = Raise z → z = IndexError.
Proof. destruct k; simpl; congruence. Qed.

Lemma ring_strings_planar (r : ring) :
  mapM (format_xy str_float) (map planar r) = mapM (format_xy str_float) r.
Proof. rewrite mapM_fmap. apply mapM_eq, format_xy_planar. Qed.

Lemma svg_part_planar (s : Q) (v : bool) (g : polygon_view) :
  svg_part str_float s v (planar_view g) = svg_part str_float s v g.
Proof.
  unfold svg_part, planar_view. cbn [exterior interiors].
  rewrite ring_strings_planar, mapM_fmap.
  by rewrite (mapM_eq _ _ _ ring_strings_planar).
Qed.

(** X10: [svg] reads only the first two entries of every point: a
    geometry and its projection to the plane give the same outcome, the
    same text or the same error. *)
Theorem svg_ignores_third_coordinate (parts : list polygon_view) (s : Q) (v : bool) :
  svg str_float (map planar_view parts) s v = svg str_float parts s v.
Proof.
  unfold svg. rewrite mapM_fmap.
  by rewrite (mapM_eq _ _ _ (svg_part_planar s v)).
Qed.

Lemma ring_strings_Ok (r : ring) :
  (∃ k, mapM (format_xy str_float) r = Ok k)
  ↔ forallb (fun c : coord => Nat.leb 2 (length c)) r = true.
Proof.
  induction r as [|c r IH].
  - split; [done|]. intros _. by exists [].
  - cbn [forallb]. rewrite andb_true_iff, <- IH. split.
    + intros [k (b & k' & Hb & Hk' & _)%mapM_cons_Ok]. split; [|by exists k'].
      by destruct c as [|x [|y c]].
    + intros [Hc [k' Hk']]. destruct c as [|x [|y c]]; try done.
      eexists. apply mapM_cons_Ok. by eexists _, k'.
Qed.

Lemma drawable_ring_path (r : ring) :
  (∃ k p, mapM (format_xy str_float) r = Ok k ∧ ring_path k = Ok p)
  ↔ drawable_ring r = true.
Proof.
  unfold drawable_ring. rewrite andb_true_iff, <- ring_strings_Ok. split.
  - intros (k & p & Hk & Hp). split; [|by exists k].
    apply mapM_Ok_length in Hk. destruct k; [done|]. by destruct r.
  - intros [Hne [k Hk]]. exists k.
    pose proof (mapM_Ok_length _ _ _ Hk) as Hlen.
    destruct k as [|c0 k]; [by destruct r|]. by eexists.
Qed.

Lemma drawable_rings_paths (rs : list ring) :
  (∃ ks ps, mapM (mapM (format_xy str_float)) rs = Ok ks ∧ mapM ring_path ks = Ok ps)
  ↔ forallb drawable_ring rs = true.
Proof.
  induction rs as [|r rs IH].
  - split; [done|]. intros _. by exists [], [].
  - cbn [forallb]. rewrite andb_true_iff, <- IH, <- drawable_ring_path. split.
    + intros (ks & ps & (k & ks' & Hk & Hks' & ->)%mapM_cons_Ok & Hps).
      apply mapM_cons_Ok in Hps as (p & ps' & Hp & Hps' & ->).
      split; [by exists k, p | by exists ks', ps'].
    + intros [(k & p & Hk & Hp) (ks & ps & Hks & Hps)].
      exists (k :: ks), (p :: ps). split; apply mapM_cons_Ok; by eexists _, _.
Qed.

Lemma svg_part_Ok (s : Q) (v : bool) (g : polygon_view) :
  (∃ out, svg_part str_float s v g = Ok out) ↔ drawable g = true.
Proof.
  unfold drawable. rewrite andb_true_iff, <- drawable_ring_path,
    <- drawable_rings_paths.
  split.
  - unfold svg_part. unfold_m. intros [out Hout].
    destruct (mapM (format_xy str_float) (exterior g)) as [k|] eqn:Hk; [|done].
    destruct (mapM (mapM (format_xy str_float)) (interiors g)) as [ks|] eqn:Hks;
      [|done].
    destruct (mapM ring_path ([k] ++ ks)) as [ps|] eqn:Hps; [|done].
    apply mapM_cons_Ok in Hps as (p & ps' & Hp & Hps' & ->).
    split; [by exists k, p | by exists ks, ps'].
  - intros [(k & p & Hk & Hp) (ks & ps & Hks & Hps)].
    assert (mapM ring_path ([k] ++ ks) = Ok (p :: ps)) as Hall.
    { apply mapM_cons_Ok. by eexists _, _. }
    unfold svg_part. unfold_m. rewrite Hk, Hks, Hall. by eexists.
Qed.

Lemma svg_part_raises (s : Q) (v : bool) (g : polygon_view) (z : exn) :
  svg_part str_float s v g = Raise z → z = IndexError.
Proof.
  unfold svg_part. unfold_m.
  destruct (mapM (format_xy str_float) (exterior g)) as [k|x] eqn:Hk.
  2: { intros [= <-]. eapply mapM_raises; [|exact Hk]. apply format_xy_raises. }
  destruct (mapM (mapM (format_xy str_float)) (interiors g)) as [ks|x] eqn:Hks.
  2: { intros [= <-]. eapply mapM_raises; [|exact Hks].
       intros r y Hr. eapply mapM_raises; [|exact Hr]. apply format_xy_raises. }
  destruct (mapM ring_path ([k] ++ ks)) as [ps|x] eqn:Hps; [done|].
  intros [= <-]. eapply mapM_raises; [|exact Hps]. apply ring_path_raises.
Qed.

(** X11: [svg] returns a text exactly when every ring of every part has
    at least one point and every point at least two entries, whatever
    the scale factor and the validity flag; otherwise it raises
    [IndexError], and it raises nothing else.  Without parts the text is
    empty. *)
Theorem svg_succeeds_iff_drawable (parts : list polygon_view) (s : Q) (v : bool) :
  ((∃ out, svg str_float parts s v = Ok out) ↔ forallb drawable parts = true)
  ∧ (forallb drawable parts = false → svg str_float parts s v = Raise IndexError)
  ∧ svg str_float [] s v = Ok "".
Proof.
  assert ((∃ out, svg str_float parts s v = Ok out)
          ↔ forallb drawable parts = true) as Hiff.
  { assert (∀ ps, (∃ gs, mapM (svg_part str_float s v) ps = Ok gs)
                  ↔ forallb drawable ps = true) as Hgroups.
    { induction ps as [|g ps IH].
      - split; [done|]. intros _. by exists [].
      - cbn [forallb]. rewrite andb_true_iff, <- IH, <- (svg_part_Ok s v). split.
        + intros [gs (o & gs' & Ho & Hgs' & _)%mapM_cons_Ok].
          split; [by exists o | by exists gs'].
        + intros [[o Ho] [gs' Hgs']]. exists (o :: gs').
          apply mapM_cons_Ok. by eexists _, _. }
    rewrite <- Hgroups. unfold svg. split.
    - intros [out Hout].
      destruct (mapM (svg_part str_float s v) parts) as [gs|]; [|done].
      by exists gs.
    - intros [gs ->]. by eexists. }
  split_and!; [exact Hiff| |done].
  intros Hbad. destruct (svg str_float parts s v) as [out|z] eqn:Hsvg.
  - assert (forallb drawable parts = true) by (apply Hiff; by exists out).
    congruence.
  - f_equal. revert Hsvg. unfold svg. unfold_m.
    destruct (mapM _ parts) as [gs|x] eqn:Hgs; [done|].
    intros [= <-]. eapply mapM_raises; [|exact Hgs].
    intros g y. apply svg_part_raises.
Qed.

End SvgFacts.

(** ** The further properties at concrete inputs *)

Lemma counting_builder_not_null (shell holes : pyval) (e : nat) (g : handle)
    (n : pyval) (e' : nat) :
  counting_builder shell holes e = (Ok (g, n), e') → g ≠ null.
Proof. unfold counting_builder. intros [= <- _ _]. discriminate. Defined.

Lemma handle_array_filled_witness :
  let ob := PySeq [geojson_part unit_square_part] in
  (∀ shell holes e g n e',
     counting_builder shell holes e = (Ok (g, n), e') → g ≠ null)
  ∧ geos_multipolygon_from_py counting_builder counting_collection ob 0
    = (Ok (2, PyInt 2), 2)
  ∧ ∃ L subs e1, py_len ob = Ok L ∧ length subs = L
                 ∧ Forall (fun h => h ≠ null) subs
                 ∧ counting_collection 6 subs L e1 = (Ok 2, 2).
Proof.
  intros ob. split; [exact counting_builder_not_null|]. split; [reflexivity|].
  exact (proj1 (handle_array_filled counting_builder counting_collection ob 0 2 2
                  (PyInt 2) counting_builder_not_null) eq_refl).
Defined.

Lemma square_tuple_preamble (rest : list pyval) :
  preamble_ok EXPLICIT ([tuple_part unit_square_part] ++ rest).
Proof. exists (tuple_part unit_square_part), (PyInt 2). by split_and!. Defined.

Lemma failing_part_stops_assembly_witness :
  let good := [tuple_part unit_square_part] in
  let bad := PySeq [coords_tuple unit_square] in
  preamble_ok EXPLICIT (good ++ bad :: [])
  ∧ build_parts counting_builder part_shape_polygons good 0 = (Ok [1], 1)
  ∧ build_part counting_builder part_shape_polygons bad 1 = (Raise IndexError, 1)
  ∧ geos_multipolygon_from_polygons counting_builder counting_collection
      (PySeq (good ++ bad :: [])) 0
    = (Raise IndexError, 1).
Proof.
  intros good bad.
  split; [apply square_tuple_preamble|]. split; [reflexivity|].
  split; [reflexivity|].
  exact (proj2 (failing_part_stops_assembly counting_builder counting_collection
                  good bad [] [1] IndexError 0 1 1)
           (square_tuple_preamble _) eq_refl eq_refl).
Defined.

Lemma part_without_holes_entry_witness :
  let good := [tuple_part unit_square_part] in
  preamble_ok EXPLICIT (good ++ PySeq [coords_tuple unit_square] :: [])
  ∧ build_parts counting_builder part_shape_polygons good 0 = (Ok [1], 1)
  ∧ geos_multipolygon_from_polygons counting_builder counting_collection
      (PySeq (good ++ PySeq [coords_tuple unit_square] :: [])) 0
    = (Raise IndexError, 1).
Proof.
  intros good.
  split; [apply square_tuple_preamble|]. split; [reflexivity|].
  exact (proj1 (part_without_holes_entry counting_builder counting_collection
                  good (coords_tuple unit_square) [] [1] 0 1)
           (square_tuple_preamble _) eq_refl).
Defined.

Lemma polygons_mode_ignores_extra_elements_witness :
  let p := PySeq [coords_tuple unit_square; PySeq []; coords_tuple cube_face] in
  let p' := PySeq [coords_tuple unit_square; PySeq []] in
  Forall2 same_first_two [p] [p']
  ∧ geos_multipolygon_from_polygons counting_builder counting_collection (PySeq [p]) 0
    = geos_multipolygon_from_polygons counting_builder counting_collection
        (PySeq [p']) 0.
Proof.
  intros p p'.
  assert (Forall2 same_first_two [p] [p']) as H.
  { constructor; [|constructor].
    by exists (coords_tuple unit_square), (PySeq []), [coords_tuple cube_face], []. }
  split; [exact H|].
  exact (polygons_mode_ignores_extra_elements counting_builder counting_collection
           [p] [p'] 0 H).
Defined.

Lemma empty_input_makes_empty_object_witness :
  (py_len (PySeq []) = Ok 0 ∨ py_len (parts_of (PySeq [])) = Ok 0)
  ∧ MultiPolygon_init counting_builder counting_collection (PySeq []) "geojson" 0
    = (Ok base_init, 0).
Proof.
  assert (py_len (PySeq []) = Ok 0 ∨ py_len (parts_of (PySeq [])) = Ok 0) as H
    by (left; reflexivity).
  split; [exact H|].
  exact (empty_input_makes_empty_object counting_builder counting_collection
           (PySeq []) "geojson" 0 H).
Defined.

Lemma constructor_sets_handle_and_ndim_witness :
  let polygons := PySeq [tuple_part unit_square_part] in
  let obj := {| _geom := Some 2; _ndim := Some (PyInt 2) |} in
  MultiPolygon_init counting_builder counting_collection polygons "polygons" 0
  = (Ok obj, 2)
  ∧ ((obj = base_init ∧ 2 = 0
      ∧ (py_truthy polygons = false
         ∨ ("polygons" ≠ "polygons" ∧ "polygons" ≠ "geojson")))
     ∨ (∃ g N, obj = {| _geom := Some g; _ndim := Some N |}
               ∧ (py_eq_int N 2 = true ∨ py_eq_int N 3 = true)
               ∧ py_truthy polygons = true
               ∧ ("polygons" = "polygons" ∨ "polygons" = "geojson"))).
Proof.
  intros polygons obj. split; [reflexivity|].
  exact (constructor_sets_handle_and_ndim counting_builder counting_collection
           polygons "polygons" 0 2 obj eq_refl).
Defined.

Lemma probe_agrees_with_factory_witness :
  let ctx := PySeq [geojson_part unit_square_part] in
  ndim_from_array ctx = Raise AttributeError
  ∧ geos_multipolygon_from_py counting_builder counting_collection ctx 0
    = (Ok (2, PyInt 2), 2)
  ∧ MultiPolygonAdapter_ndim (MultiPolygonAdapter_init ctx "geojson") = Ok (PyInt 2).
Proof.
  intros ctx. split; [reflexivity|]. split; [reflexivity|].
  exact (proj1 (probe_agrees_with_factory counting_builder counting_collection
                  ctx 0 2 2 (PyInt 2) eq_refl) eq_refl).
Defined.

Lemma probe_answers_where_factories_refuse_witness :
  let c := [PyNum 0; PyNum 0; PyNum 0; PyNum 0] in
  let ctx := PySeq [PySeq [PySeq [PySeq c]; PySeq []]] in
  length c ≠ 2 ∧ length c ≠ 3
  ∧ MultiPolygonAdapter_ndim (asMultiPolygon ctx) = Ok (PyInt 4)
  ∧ geos_multipolygon_from_polygons counting_builder counting_collection ctx 0
    = (Raise AssertionError, 0).
Proof.
  intros c ctx.
  assert (length c ≠ 2) as H2 by discriminate.
  assert (length c ≠ 3) as H3 by discriminate.
  split; [exact H2|]. split; [exact H3|].
  destruct (probe_answers_where_factories_refuse counting_builder counting_collection
              c [] [PySeq []] [] 0 H2 H3) as (Hprobe & _ & Hpoly & _).
  split; [exact Hprobe | exact Hpoly].
Defined.

Lemma geo_interface_lists_parts_witness :
  geoms base_init engine_init = []
  ∧ py_getkey (geo_interface base_init engine_init) "coordinates" = Ok (PySeq []).
Proof.
  split; [reflexivity|].
  exact (proj2 (geo_interface_lists_parts base_init engine_init) eq_refl).
Defined.

Lemma svg_succeeds_iff_drawable_witness :
  let parts := [view_of_part docstring_part] in
  forallb drawable parts = true
  ∧ ∃ out, svg WKT.format_number parts 1 true = Ok out.
Proof.
  intros parts. split; [reflexivity|].
  exact (proj2 (proj1 (svg_succeeds_iff_drawable WKT.format_number parts 1 true))
           eq_refl).
Defined.

Lemma assembly_builds_in_input_order_witness :
  let items := [geojson_part unit_square_part; geojson_part (cube_face, [])] in
  first_ndim_py (PySeq items) = Ok 2
  ∧ build_parts counting_builder part_shape_py items 0 = (Ok [1; 2], 2)
  ∧ counting_collection 6 [1; 2] (length items) 2 = (Ok 3, 3)
  ∧ items ≠ []
  ∧ geos_multipolygon_from_py counting_builder counting_collection (PySeq items) 0
    = (Ok (3, PyInt 2), 3).
Proof.
  intros items.
  assert (items ≠ []) as Hne by discriminate.
  split; [reflexivity|]. split; [reflexivity|]. split; [reflexivity|].
  split; [exact Hne|].
  exact (proj1 (assembly_builds_in_input_order counting_builder counting_collection
                  items [1; 2] 3 0 2 3) 2 eq_refl eq_refl eq_refl eq_refl Hne).
Defined.

Lemma modes_agree_on_corresponding_input_witness :
  let ps := [tuple_part docstring_part] in
  let qs := [geojson_part docstring_part] in
  Forall2 corresponds ps qs
  ∧ first_ndim_py (PySeq qs) = Ok 2
  ∧ geos_multipolygon_from_polygons counting_builder counting_collection (PySeq ps) 0
    = geos_multipolygon_from_py counting_builder counting_collection (PySeq qs) 0.
Proof.
  intros ps qs.
  assert (Forall2 corresponds ps qs) as H.
  { constructor; [|constructor].
    by exists (coords_tuple docstring_part.1), (map coords_tuple docstring_part.2). }
  split; [exact H|]. split; [reflexivity|].
  exact (modes_agree_on_corresponding_input counting_builder counting_collection
           ps qs 2 0 H eq_refl).
Defined.
